(** * pdf-dpi-converter: a shallow embedding of [server.js]

    The server stages uploaded PDF files with multer, rewrites each of them
    with Ghostscript at a requested resolution and serves the outputs.  This
    file embeds the request handlers of [server.js] as state-passing
    functions over an explicit world (file system, consumed randomness,
    effect log) and proves the properties stated about them. *)

From Stdlib Require Import ZArith Lia Ascii String.
From Stdlib.Strings Require Import Byte.
From stdpp Require Import base option list gmap strings.

Local Open Scope Z_scope.

(** ** Strings *)

Module Str.

Fixpoint all (P : ascii → bool) (s : string) : bool :=
  match s with
  | EmptyString => true
  | String c s' => P c && all P s'
  end.

Fixpoint starts_with (p s : string) : bool :=
  match p, s with
  | EmptyString, _ => true
  | String a p', String b s' => if decide (a = b) then starts_with p' s' else false
  | String _ _, EmptyString => false
  end.

(** [strip p s] is the rest of [s] after its prefix [p]. *)
Fixpoint strip (p s : string) : option string :=
  match p, s with
  | EmptyString, _ => Some s
  | String a p', String b s' => if decide (a = b) then strip p' s' else None
  | String _ _, EmptyString => None
  end.

End Str.

(** ** Numbers as the handlers use them *)

(** A JavaScript number that [parseInt] can return: [NaN] or an integer
    (the sign of a zero is not observable in [server.js]: both zeros are
    falsy and compare alike).  The integer is kept exact; the rounding of
    huge values to a double is monotone, so the comparisons against 72 and
    2400 are not affected, and every value that passes them is exact. *)
Inductive JsNumber :=
| NaN
| Int (z : Z).

(** White space that [parseInt] skips, among the code units below 256. *)
Definition is_js_whitespace (c : ascii) : bool :=
  match c with
  | "009" | "010" | "011" | "012" | "013" | " " | "160" => true
  | _ => false
  end%char.

Fixpoint trim_start (s : string) : string :=
  match s with
  | String c s' => if is_js_whitespace c then trim_start s' else s
  | EmptyString => EmptyString
  end.

(** Value of a character as a digit in a radix up to 36. *)
Definition digit_value (c : ascii) : option Z :=
  let n := Z.of_N (N_of_ascii c) in
  if (48 <=? n) && (n <=? 57) then Some (n - 48)
  else if (97 <=? n) && (n <=? 122) then Some (n - 97 + 10)
  else if (65 <=? n) && (n <=? 90) then Some (n - 65 + 10)
  else None.

(** The longest prefix of radix-[r] digits, as a number; [acc] is [None]
    until the first digit has been read. *)
Fixpoint parse_digits (r : Z) (s : string) (acc : option Z) : option Z :=
  match s with
  | String c s' =>
      match digit_value c with
      | Some d =>
          if d <? r then parse_digits r s' (Some (default 0 acc * r + d))
          else acc
      | None => acc
      end
  | EmptyString => acc
  end.

(** [parseInt(string)] with the radix left out (ECMAScript, parseInt). *)
Definition parseInt (input : string) : JsNumber :=
  let s := trim_start input in
  let '(sign, s) :=
    match s with
    | String "-" r => (-1, r)
    | String "+" r => (1, r)
    | _ => (1, s)
    end%char in
  let '(radix, s) :=
    match s with
    | String "0" (String "x" r) | String "0" (String "X" r) => (16, r)
    | _ => (10, s)
    end%char in
  match parse_digits radix s None with
  | None => NaN
  | Some m => Int (sign * m)
  end.

(** [x || d] on numbers: [NaN] and zero are falsy. *)
Definition or_default (x : JsNumber) (d : Z) : Z :=
  match x with
  | NaN => d
  | Int z => if decide (z = 0) then d else z
  end.

(** A form field that is absent reads as [undefined], which [parseInt]
    turns into the text "undefined" before parsing. *)
Definition to_js_string (v : option string) : string :=
  match v with
  | Some s => s
  | None => "undefined"
  end.

(** Decimal rendering of an integer, as a template literal prints it (for
    magnitudes below 10^21, which covers every value the handlers print). *)
Definition digit_char (d : Z) : ascii := ascii_of_N (Z.to_N (48 + d)).

Fixpoint dec_digits (fuel : nat) (n : Z) (acc : string) : string :=
  match fuel with
  | O => acc
  | S fuel' =>
      let acc' := String (digit_char (n mod 10)) acc in
      if n <? 10 then acc' else dec_digits fuel' (n / 10) acc'
  end.

Definition number_to_string (z : Z) : string :=
  let digits n := dec_digits (S (Z.to_nat (Z.log2 n))) n EmptyString in
  if z <? 0 then String "-"%char (digits (- z)) else digits z.

(** The number a run of decimal digits adds to what was read before. *)
Fixpoint digits_val (s : string) (v : Z) : Z :=
  match s with
  | EmptyString => v
  | String c s' => digits_val s' (v * 10 + default 0 (digit_value c))
  end.

(** Reading a whole string as a signed decimal numeral. *)
Definition is_decimal_digit (c : ascii) : bool :=
  let n := Z.of_N (N_of_ascii c) in (48 <=? n) && (n <=? 57).

Definition read_decimal (s : string) : option Z :=
  let '(sign, body) :=
    match s with
    | String "-" r => (-1, r)
    | _ => (1, s)
    end%char in
  if Str.all is_decimal_digit body
  then (λ m, sign * m) <$> parse_digits 10 body None
  else None.


(** A field value that is an integer numeral from end to end. *)
Definition is_integer_text (s : string) : bool :=
  let body :=
    match s with
    | String "-" r | String "+" r => r
    | _ => s
    end%char in
  match body with
  | EmptyString => false
  | _ => Str.all is_decimal_digit body
  end.

(** Whether the text, after white space and a sign, begins with a decimal
    digit: the least [parseInt] needs to read a number from it. *)
Definition has_leading_digit (s : string) : bool :=
  let s := trim_start s in
  let s :=
    match s with
    | String "-" r | String "+" r => r
    | _ => s
    end%char in
  match s with
  | String c _ => is_decimal_digit c
  | EmptyString => false
  end.

(** ** Buffers and hexadecimal tokens *)

Definition hex_digit (n : N) : ascii :=
  default "0"%char (String.get (N.to_nat n) "0123456789abcdef").

(** [buf.toString("hex")]: two lowercase digits per byte. *)
Fixpoint hex (buf : list byte) : string :=
  match buf with
  | [] => EmptyString
  | b :: buf' =>
      String (hex_digit (Byte.to_N b / 16))
        (String (hex_digit (Byte.to_N b mod 16)) (hex buf'))
  end.

Definition is_lower_hex (c : ascii) : bool :=
  let n := Z.of_N (N_of_ascii c) in
  ((48 <=? n) && (n <=? 57)) || ((97 <=? n) && (n <=? 102)).

(** Reading a hexadecimal text back into bytes. *)
Definition hex_value (c : ascii) : option N :=
  let n := N_of_ascii c in
  if ((48 <=? n) && (n <=? 57))%N then Some (n - 48)%N
  else if ((97 <=? n) && (n <=? 102))%N then Some (n - 97 + 10)%N
  else None.

Fixpoint unhex (s : string) : option (list byte) :=
  match s with
  | EmptyString => Some []
  | String a (String b s') =>
      match hex_value a, hex_value b, unhex s' with
      | Some hi, Some lo, Some rest =>
          match Byte.of_N (hi * 16 + lo) with
          | Some x => Some (x :: rest)
          | None => None
          end
      | _, _, _ => None
      end
  | String _ EmptyString => None
  end.

(** Whether a text begins with a decimal digit. *)
Definition begins_with_digit (s : string) : bool :=
  match s with
  | String c _ => is_decimal_digit c
  | EmptyString => false
  end.

(** ** The texts built by [setPdfDPI] *)

(** The PostScript directive is the template literal [psContent]: four
    fixed pieces around the three places where the resolution is printed. *)
Definition psContent_head : string :=
"
            << /EndPage {
                2 dict begin
                /pdfmark where {pop} {userdict /pdfmark /cleartomark load put} ifelse
                [
                    /Title (Set DPI)
                    /Author (PDF Processor)
                    /Creator (PDF DPI Setter)
                    /Producer (Ghostscript)
                    /ModDate (D:20240214)
                    /CreationDate (D:20240214)
                    /Subject (DPI Modified PDF)
                    /Keywords (DPI, PDF)
                    /ViewerPreferences <<
                        /DisplayDocTitle true
                        /HideToolbar false
                        /HideMenubar false
                        /HideWindowUI false
                        /FitWindow false
                        /CenterWindow false
                        /ShowPrintDialog true
                    >>
                    /SetDistillerParams <<
                        /AutoRotatePages /None
                        /ColorImageDownsampleType /None
                        /GrayImageDownsampleType /None
                        /MonoImageDownsampleType /None
                        /ColorImageResolution ".

Definition psContent_gray : string :=
"
                        /GrayImageResolution ".

Definition psContent_mono : string :=
"
                        /MonoImageResolution ".

Definition psContent_tail : string :=
"
                        /DownsampleColorImages false
                        /DownsampleGrayImages false
                        /DownsampleMonoImages false
                        /AutoFilterColorImages false
                        /AutoFilterGrayImages false
                        /ColorImageFilter /FlateEncode
                        /GrayImageFilter /FlateEncode
                        /MonoImageFilter /CCITTFaxEncode
                        /ColorConversionStrategy /LeaveColorUnchanged
                        /PreserveOverprintSettings true
                        /UCRandBGInfo /Preserve
                        /ParseDSCComments true
                        /PreserveCopyPage true
                        /CannotEmbedFontPolicy /Warning
                    >>
                    /DOCINFO pdfmark
                } stopped cleartomark
                end
                true
            } bind>> setpagedevice".

Definition psContent (targetDPI : Z) : string :=
  psContent_head +:+ number_to_string targetDPI +:+
  psContent_gray +:+ number_to_string targetDPI +:+
  psContent_mono +:+ number_to_string targetDPI +:+
  psContent_tail.

Definition quote : string := String "034"%char EmptyString.

(** The Ghostscript command line; the line continuations of the template
    literal leave the indentation of each following line in the text. *)
Definition gap : string := "                    ".

Definition command (psFile inputPath outputPath : string) (targetDPI : Z) : string :=
  "gs " +:+ gap +:+ "-sDEVICE=pdfwrite " +:+
  gap +:+ "-dNOPAUSE " +:+
  gap +:+ "-dBATCH " +:+
  gap +:+ "-dQUIET " +:+
  gap +:+ "-dPDFSETTINGS=/prepress " +:+
  gap +:+ "-dCompatibilityLevel=1.4 " +:+
  gap +:+ "-dDEVICEXRESOLUTION=" +:+ number_to_string targetDPI +:+ " " +:+
  gap +:+ "-dDEVICEYRESOLUTION=" +:+ number_to_string targetDPI +:+ " " +:+
  gap +:+ "-dFIXEDMEDIA " +:+
  gap +:+ "-dPDFX " +:+
  gap +:+ "-dUseCIEColor " +:+
  gap +:+ "-f " +:+ quote +:+ psFile +:+ quote +:+ " " +:+
  gap +:+ "-f " +:+ quote +:+ inputPath +:+ quote +:+ " " +:+
  gap +:+ "-sOutputFile=" +:+ quote +:+ outputPath +:+ quote.

Global Arguments psContent : simpl never.
Global Arguments command : simpl never.
Global Arguments number_to_string : simpl never.


(** ** Reading the two texts back *)

(** The pieces of a text between separator characters. *)
Fixpoint split (sep : ascii → bool) (s : string) : list string :=
  match s with
  | EmptyString => [EmptyString]
  | String c s' =>
      if sep c then EmptyString :: split sep s'
      else
        match split sep s' with
        | piece :: pieces => String c piece :: pieces
        | [] => [String c EmptyString]
        end
  end.

(** The pieces of a concatenation: the last piece of the first text runs
    into the first piece of the second. *)
Fixpoint glue (l1 l2 : list string) : list string :=
  match l1 with
  | [] => l2
  | [x] =>
      match l2 with
      | y :: l2' => (x +:+ y) :: l2'
      | [] => [x]
      end
  | x :: l1' => x :: glue l1' l2
  end.

Fixpoint first_some {A B} (f : A → option B) (l : list A) : option B :=
  match l with
  | [] => None
  | x :: l' =>
      match f x with
      | Some y => Some y
      | None => first_some f l'
      end
  end.

Definition is_blank (c : ascii) : bool := bool_decide (c = " "%char).
Definition is_newline (c : ascii) : bool := bool_decide (c = "010"%char).

(** The words of a command line: its pieces between blanks. *)
Definition words (cmd : string) : list string :=
  filter (λ piece, piece ≠ EmptyString) (split is_blank cmd).

(** The value of the first word of a command line that starts with [key]. *)
Definition argument (key cmd : string) : option string :=
  first_some (Str.strip key) (split is_blank cmd).

(** The resolution a command line sets for the device, along [axis]. *)
Definition device_resolution (axis cmd : string) : option Z :=
  argument ("-dDEVICE" +:+ axis +:+ "RESOLUTION=") cmd ≫= read_decimal.

(** The value of the first line of a directive that reads [key value]. *)
Definition entry (key directive : string) : option string :=
  first_some (λ line, Str.strip (key +:+ " ") (trim_start line))
             (split is_newline directive).

(** ** Paths

    [path.normalize] and [path.join] of Node's [path] module, for POSIX
    paths. *)

Module Path.

Definition is_slash (c : ascii) : bool := bool_decide (c = "/"%char).

Fixpoint ends_with_slash (s : string) : bool :=
  match s with
  | EmptyString => false
  | String c EmptyString => is_slash c
  | String _ s' => ends_with_slash s'
  end.

(** One more segment on the segments kept so far, the last one first: an
    empty segment and "." are dropped; ".." takes the last segment off,
    and is kept where there is none to take and the path is relative. *)
Definition push (allowAboveRoot : bool) (res : list string) (segment : string)
    : list string :=
  if decide (segment = EmptyString ∨ segment = ".") then res
  else if decide (segment = "..") then
    match res with
    | last :: res' =>
        if decide (last = "..")
        then (if allowAboveRoot then segment :: res else res)
        else res'
    | [] => if allowAboveRoot then [segment] else []
    end
  else segment :: res.

Definition normalizeString (path : string) (allowAboveRoot : bool) : list string :=
  reverse (foldl (push allowAboveRoot) [] (split is_slash path)).

Definition isAbsolute (path : string) : bool := Str.starts_with "/" path.

Definition normalize (path : string) : string :=
  if decide (path = EmptyString) then "."
  else
    let body := String.concat "/" (normalizeString path (negb (isAbsolute path))) in
    if decide (body = EmptyString) then
      if isAbsolute path then "/"
      else if ends_with_slash path then "./" else "."
    else
      (if isAbsolute path then "/" else EmptyString) +:+ body +:+
      (if ends_with_slash path then "/" else EmptyString).

Definition join (paths : list string) : string :=
  match filter (λ p, p ≠ EmptyString) paths with
  | [] => "."
  | parts => normalize (String.concat "/" parts)
  end.

(** The directory above [dir]; the root is written as the empty text, so
    that a path below a directory is always the directory, a slash and the
    rest. *)
Definition parent (dir : string) : string :=
  String.concat "/" (removelast (split is_slash dir)).

Fixpoint ascend (dir : string) (segments : list string) : string * list string :=
  match segments with
  | segment :: segments' =>
      if decide (segment = "..") then ascend (parent dir) segments'
      else (dir, segments)
  | [] => (dir, [])
  end.

(** [path.join(dir, rel)] for an absolute directory [dir] in normal form,
    as [__dirname] and the working directory are, and a relative path
    [rel] in normal form, as [join] returns it: every ".." at the front of
    [rel] goes one directory up from [dir], the rest is appended. *)
Definition under (dir rel : string) : string :=
  let '(base, segments) := ascend dir (split is_slash rel) in
  let kept := filter (λ s, s ≠ EmptyString ∧ s ≠ ".") segments in
  let body := base +:+ String.concat EmptyString (String.app "/" <$> kept) in
  if decide (body = EmptyString) then "/"
  else body +:+ (if ends_with_slash rel then "/" else EmptyString).

(** A single segment that [normalize] keeps as it is. *)
Definition is_plain (segment : string) : bool :=
  Str.all (λ c, negb (is_slash c)) segment &&
  bool_decide (segment ≠ EmptyString ∧ segment ≠ "." ∧ segment ≠ "..").

(** The last segment of a path. *)
Definition basename (path : string) : string :=
  default EmptyString (last (split is_slash path)).

Definition without_trailing_slash (path : string) : string :=
  if ends_with_slash path
  then String.concat "/" (removelast (split is_slash path))
  else path.

End Path.

(** ** The world the server runs in *)

(** Effects of the handlers, in the order they happen. *)
Inductive Event :=
| Staged (index : nat) (path : string)
| Removed (path : string)
| WriteFile (path content : string)
| Exec (cmd : string)
| Unlink (path : string)
| ConsoleError (args : list string).

(** The file system maps the absolute paths of regular files to their
    contents; [drawn] counts the random bytes consumed so far. *)
Record World := mkWorld {
  fs : gmap string string;
  drawn : nat;
  events : list Event
}.

(** A promise that has settled. *)
Inductive Outcome (A : Type) :=
| Resolved (a : A)
| Rejected (message : string).
Arguments Resolved {A} a.
Arguments Rejected {A} message.

Definition M (A : Type) : Type := World → Outcome A * World.

Global Instance M_ret : MRet M := λ A a w, (Resolved a, w).
Global Instance M_bind : MBind M := λ A B f m w,
  match m w with
  | (Resolved a, w') => f a w'
  | (Rejected e, w') => (Rejected e, w')
  end.

Definition throw {A} (message : string) : M A := λ w, (Rejected message, w).

(** [try { m } catch (e) { handler e }] *)
Definition try_catch {A} (m : M A) (handler : string → M A) : M A := λ w,
  match m w with
  | (Rejected e, w') => handler e w'
  | r => r
  end.

(** [try { m } finally { cleanup }], for a cleanup that does not throw. *)
Definition try_finally {A} (m : M A) (cleanup : World → World) : M A := λ w,
  let '(r, w') := m w in (r, cleanup w').

Definition log (e : Event) (w : World) : World :=
  mkWorld (fs w) (drawn w) (events w ++ [e]).

Definition console_error (args : list string) : World → World :=
  log (ConsoleError args).

(** [promise.catch(err => console.error(...labels, err))] *)
Definition catch_log {A} (m : M A) (labels : list string) : World → World := λ w,
  match m w with
  | (Resolved _, w') => w'
  | (Rejected e, w') => console_error (labels ++ [e]) w'
  end.

Definition is_exec (e : Event) : bool :=
  match e with
  | Exec _ => true
  | _ => false
  end.

(** How many times the engine was started. *)
Definition engine_runs (evs : list Event) : nat :=
  length (filter (λ e, is_exec e = true) evs).

(** The texts written to files, in order. *)
Definition written_texts (evs : list Event) : list string :=
  omap (λ e, match e with WriteFile _ c => Some c | _ => None end) evs.

Definition staged_paths (evs : list Event) : list string :=
  omap (λ e, match e with Staged _ p => Some p | _ => None end) evs.

(** HTTP responses of the two routes. *)
Record ConversionResult := mkResult {
  originalName : string;
  name : string;
  url : string;
  dpi : Z
}.

Inductive Response :=
| Json200 (message : string) (files : list ConversionResult)
| Json400 (error : string)
| Json404 (error : string)
| Json500 (error details : string)
| Download200 (body : string)
| Unhandled404
| Unhandled500 (message : string).

Definition status (r : Response) : Z :=
  match r with
  | Json200 _ _ | Download200 _ => 200
  | Json400 _ => 400
  | Json404 _ | Unhandled404 => 404
  | Json500 _ _ | Unhandled500 _ => 500
  end.

(** The entries of the [files] array of a response body, if it has one. *)
Definition response_files (r : Response) : list ConversionResult :=
  match r with
  | Json200 _ files => files
  | _ => []
  end.

(** A file part of a multipart request, and the record multer hands to
    the route for a stored file. *)
Record Part := mkPart {
  part_filename : string;
  part_type : string;
  part_data : string
}.

Record MulterFile := mkFile {
  originalname : string;
  mimetype : string;
  filename : string;
  path : string
}.

(** What a run of the external engine leaves behind: the [error] that
    [exec] reports (a failed spawn or a non-zero exit), the text on its
    standard error, and the file system. *)
Record ExecResult := mkExec {
  exec_error : option string;
  exec_stderr : string;
  exec_fs : gmap string string
}.

(** What the process does not decide: the bytes [crypto.randomBytes]
    returns, the Ghostscript run behind [exec], whether [fs.writeFile] fails
    (and with which message), whether [fs.unlink] of a file that is there
    fails (permissions, a busy file, a read-only file system),
    [path.extname], the working directory that relative paths resolve
    against, and the directory of [server.js]. *)
Class Env := mkEnv {
  entropy : nat → byte;
  gs : string → gmap string string → ExecResult;
  write_error : string → gmap string string → option string;
  unlink_error : string → gmap string string → option string;
  extname : string → string;
  cwd : string;
  dirname : string
}.

Section Server.

Context `{Env}.

(** Relative paths resolve against the working directory. *)
Definition resolve (p : string) : string := cwd +:+ "/" +:+ p.

(** [path.join] of a directory name and a plain file name. *)
Definition path_join (dir file : string) : string := dir +:+ "/" +:+ file.

Definition randomBytes (n : nat) : M (list byte) := λ w,
  (Resolved ((λ i, entropy (drawn w + i)%nat) <$> seq 0 n),
   mkWorld (fs w) (drawn w + n)%nat (events w)).

Definition fs_writeFile (p content : string) : M unit := λ w,
  let w := log (WriteFile p content) w in
  match write_error (resolve p) (fs w) with
  | Some e => (Rejected e, w)
  | None => (Resolved (), mkWorld (<[resolve p := content]> (fs w)) (drawn w) (events w))
  end.

(** [fs.unlink] fails when there is no such file, and may fail for a file
    that is there, which then stays. *)
Definition fs_unlink (p : string) : M unit := λ w,
  let w := log (Unlink p) w in
  match fs w !! resolve p with
  | Some _ =>
      match unlink_error (resolve p) (fs w) with
      | Some e => (Rejected e, w)
      | None =>
          (Resolved (), mkWorld (delete (resolve p) (fs w)) (drawn w) (events w))
      end
  | None => (Rejected ("ENOENT: no such file or directory, unlink '" +:+ p +:+ "'"), w)
  end.

(** [exec(command, callback)]: the callback's [error] and [stderr], once
    the child process has ended. *)
Definition exec (cmd : string) : M (option string * string) := λ w,
  let w := log (Exec cmd) w in
  let r := gs cmd (fs w) in
  (Resolved (exec_error r, exec_stderr r),
   mkWorld (exec_fs r) (drawn w) (events w)).

(** *** Upload intake (the multer configuration) *)

Definition fileSize_limit : N := 50 * 1024 * 1024.

Definition fileFilter (p : Part) : Outcome bool :=
  if decide (part_type p ≠ "application/pdf")
  then Rejected "Only PDF files are allowed"
  else Resolved true.

(** The [filename] callback of the disk storage ([crypto.randomBytes] is
    taken not to fail). *)
Definition storage_filename (p : Part) : M string :=
  buf ← randomBytes 16;
  mret (hex buf +:+ extname (part_filename p)).

(** multer's disk storage writes the part under [destination], here
    "uploads/", and reports the joined path. *)
Definition store (index : nat) (p : Part) : M MulterFile :=
  fname ← storage_filename p;
  let stored := "uploads/" +:+ fname in
  (λ w, (Resolved (mkFile (part_filename p) (part_type p) fname stored),
         mkWorld (<[resolve stored := part_data p]> (fs w)) (drawn w)
                 (events w ++ [Staged index stored]))) : M MulterFile.

(** When multer gives up on a request it removes what it has stored. *)
Fixpoint remove_uploaded (files : list MulterFile) (w : World) : World :=
  match files with
  | [] => w
  | f :: files' =>
      remove_uploaded files'
        (mkWorld (delete (resolve (path f)) (fs w)) (drawn w)
                 (events w ++ [Removed (path f)]))
  end.

(** Modelled from the spec: the loop of [upload.array("files")] is multer's
    and not part of the sources.  As section 4.1 has it, the parts are
    taken in order, an accepted part is written to the holding directory
    before the route runs, and a part that the filter refuses fails the
    whole request without being staged; a part over the size limit fails
    the request too.  (multer also removes what it had stored for a request
    it gives up.) *)
Fixpoint upload_array (parts : list Part) (index : nat)
    (stored : list MulterFile) : M (list MulterFile) :=
  match parts with
  | [] => mret stored
  | p :: parts' =>
      match fileFilter p with
      | Rejected e => λ w, (Rejected e, remove_uploaded stored w)
      | Resolved _ =>
          f ← store index p;
          if decide (fileSize_limit < N.of_nat (String.length (part_data p)))%N
          then (λ w, (Rejected "File too large", remove_uploaded (stored ++ [f]) w))
               : M (list MulterFile)
          else upload_array parts' (S index) (stored ++ [f])
      end
  end.

(** *** [setPdfDPI] *)

Definition psFile : string := path_join "uploads" "setdpi.ps".

Definition setPdfDPI (inputPath outputPath : string) (targetDPI : Z) : M unit :=
  try_catch
    (fs_writeFile psFile (psContent targetDPI))
    (λ e, throw ("Failed to create PostScript file: " +:+ e));;
  '(error, stderr) ← exec (command psFile inputPath outputPath targetDPI);
  (λ w,
    let w := catch_log (fs_unlink psFile) [] w in
    match error with
    | Some e =>
        (Rejected ("Failed to set PDF DPI: " +:+ e),
         console_error ["Ghostscript error:"; stderr] w)
    | None => (Resolved (), w)
    end) : M unit.

(** *** [POST /convert] *)

Definition convert_file (targetDPI : Z) (file : MulterFile)
    (results : list ConversionResult) : M (list ConversionResult) :=
  buf ← randomBytes 16;
  let outputFileName := hex buf +:+ ".pdf" in
  let outputPath := path_join "output" outputFileName in
  try_finally
    (try_catch
       (setPdfDPI (path file) outputPath targetDPI;;
        mret (results ++ [mkResult (originalname file) outputFileName
                            ("/output/" +:+ outputFileName) targetDPI]))
       (λ e w, (Rejected e, console_error ["Processing error:"; e] w)))
    (catch_log (fs_unlink (path file)) ["Cleanup error:"]).

Fixpoint convert_files (targetDPI : Z) (files : list MulterFile)
    (results : list ConversionResult) : M (list ConversionResult) :=
  match files with
  | [] => mret results
  | file :: files' =>
      results' ← convert_file targetDPI file results;
      convert_files targetDPI files' results'
  end.

Definition targetDPI_of (dpi_field : option string) : Z :=
  or_default (parseInt (to_js_string dpi_field)) 300.

Definition convert_body (files : list MulterFile) (dpi_field : option string)
    : M Response :=
  if decide (files = []) then mret (Json400 "No files uploaded")
  else
    let targetDPI := targetDPI_of dpi_field in
    if decide (targetDPI < 72 ∨ targetDPI > 2400)
    then mret (Json400 "DPI must be between 72 and 2400")
    else
      results ← convert_files targetDPI files [];
      mret (Json200 "Files processed successfully" results).

Definition convert (files : list MulterFile) (dpi_field : option string)
    (w : World) : Response * World :=
  match convert_body files dpi_field w with
  | (Resolved r, w') => (r, w')
  | (Rejected e, w') =>
      (Json500 "Internal Server Error" e,
       console_error ["Unexpected server error:"; e] w')
  end.

(** The route with its middleware: an error of the upload never reaches
    the handler and is answered by the framework. *)
Definition post_convert (parts : list Part) (dpi_field : option string)
    (w : World) : Response * World :=
  match upload_array parts 0 [] w with
  | (Resolved files, w') => convert files dpi_field w'
  | (Rejected e, w') => (Unhandled500 e, w')
  end.

(** *** [GET /output/:filename] *)

(** The world holds regular files only: a directory is there when a file
    lies under it. *)
Definition is_directory (files : gmap string string) (p : string) : bool :=
  bool_decide (set_Exists (λ key, Str.starts_with (p +:+ "/") key = true) (dom files)).

(** [fs.access(p)] succeeds for a file and for a directory; a path that
    ends in a slash names a directory only. *)
Definition fs_access (files : gmap string string) (p : string) : bool :=
  if Path.ends_with_slash p
  then is_directory files (Path.without_trailing_slash p)
  else bool_decide (is_Some (files !! p)) || is_directory files p.

(** [res.download(p)] of Express 4, called without a callback, for a path
    that [fs.access] has accepted: a file is sent as an attachment; for a
    directory, and for a file whose name starts with a dot (which [send]
    "ignores" by default), the framework answers with its own 404 page;
    for the root directory [send] looks for its index page. *)
Definition res_download (files : gmap string string) (p : string) : Response :=
  if decide (p = "/") then
    match files !! "/index.html" with
    | Some body => Download200 body
    | None => Unhandled404
    end
  else
    let target := Path.without_trailing_slash p in
    match files !! target with
    | Some body =>
        if Str.starts_with "." (Path.basename target) then Unhandled404
        else Download200 body
    | None => Unhandled404
    end.

Definition get_output (file : string) (w : World) : Response * World :=
  let filePath := Path.under dirname (Path.join ["output"; file]) in
  if fs_access (fs w) filePath
  then (res_download (fs w) filePath, w)
  else (Json404 "File not found", w).

End Server.

(** ** Vocabulary of the statements *)

Section Observations.

Context `{Env}.

(** The token made of the sixteen random bytes from position [k] on. *)
Definition token_at (k : nat) : string :=
  hex ((λ i, entropy (k + i)%nat) <$> seq 0 16).

Definition is_token (s : string) : Prop :=
  String.length s = 32%nat ∧ Str.all is_lower_hex s = true.

(** Where the engine, run in the working directory, puts an output. *)
Definition output_path (fname : string) : string :=
  resolve (path_join "output" fname).

Definition is_output (p : string) : Prop := ∃ fname, p = output_path fname.

(** A file record as multer's disk storage fills it in. *)
Definition staged (f : MulterFile) : Prop := path f = "uploads/" +:+ filename f.

(** The response entry for [file] converted under the token [tok]. *)
Definition conversion_result (targetDPI : Z) (file : MulterFile) (tok : string)
    : ConversionResult :=
  mkResult (originalname file) (tok +:+ ".pdf")
           ("/output/" +:+ tok +:+ ".pdf") targetDPI.

(** The effects one file's conversion may have. *)
Definition file_event (targetDPI : Z) (file : MulterFile) (tok : string)
    (e : Event) : Prop :=
  match e with
  | WriteFile p c => p = psFile ∧ c = psContent targetDPI
  | Exec cmd =>
      cmd = command psFile (path file) (path_join "output" (tok +:+ ".pdf")) targetDPI
  | Unlink p => p = psFile ∨ p = path file
  | ConsoleError _ => True
  | Staged _ _ | Removed _ => False
  end.

(** The effects a batch may have, whatever its tokens. *)
Definition batch_event (targetDPI : Z) (files : list MulterFile) (e : Event) : Prop :=
  ∃ file tok, file ∈ files ∧ is_token tok ∧ file_event targetDPI file tok e.

(** The staged files of the logged requests that are still on disk. *)
Definition left_on_disk (w : World) : list string :=
  filter (λ p, is_Some (fs w !! resolve p)) (staged_paths (events w)).

(** What [fs.unlink] of [p] leaves of the files [m]. *)
Definition unlinked (p : string) (m : gmap string string) : gmap string string :=
  match unlink_error (resolve p) m with
  | Some _ => m
  | None => delete (resolve p) m
  end.

(** No unlink fails for a file that is there. *)
Definition unlink_reliable : Prop := ∀ p m, unlink_error p m = None.

(** Every unlink of a file that is there fails. *)
Definition unlink_stuck : Prop := ∀ p m, is_Some (unlink_error p m).

(** The engine changes no file but the output it is told to write. *)
Definition engine_frame : Prop :=
  ∀ ps inp tok t m p,
    is_token tok →
    p ≠ output_path (tok +:+ ".pdf") →
    exec_fs (gs (command ps inp (path_join "output" (tok +:+ ".pdf")) t) m) !! p
    = m !! p.

End Observations.

(** ** Start-up *)

Section Startup.

Context `{Env}.

(** [fs.access(dir)] succeeds for anything at the path, a file or a
    directory. *)
Definition path_exists (files : gmap string string) (dirs : gset string)
    (p : string) : Prop :=
  is_Some (files !! resolve p) ∨ resolve p ∈ dirs.

(** One round of the loop of [ensureDirectories]: [fs.mkdir] (taken not to
    fail) when [fs.access] threw. *)
Definition ensure_directory (files : gmap string string) (dirs : gset string)
    (dir : string) : gset string :=
  if decide (path_exists files dirs dir) then dirs else {[resolve dir]} ∪ dirs.

(** [ensureDirectories()], on the set of directories that exist. *)
Definition ensureDirectories (files : gmap string string) (dirs : gset string)
    : gset string :=
  foldl (ensure_directory files) dirs ["uploads"; "output"].

End Startup.

(** ** A sample environment

    A stand-in for the engine, used to run the handlers on concrete
    requests: it reads the last two quoted arguments of its command line
    (input, then output) as paths in its working directory, accepts an
    input that starts with the PDF signature, and writes its output file. *)

Module Sample.

Definition is_quote (c : ascii) : bool := bool_decide (c = "034"%char).

Fixpoint until_quote (l : list ascii) : list ascii * list ascii :=
  match l with
  | [] => ([], [])
  | c :: l' =>
      if is_quote c then ([], l')
      else let '(a, b) := until_quote l' in (c :: a, b)
  end.

Fixpoint strip_chars (p l : list ascii) : option (list ascii) :=
  match p, l with
  | [], _ => Some l
  | a :: p', b :: l' => if decide (a = b) then strip_chars p' l' else None
  | _ :: _, [] => None
  end.

Definition chars (s : string) : list ascii := list_ascii_of_string s.
Definition text (l : list ascii) : string := string_of_list_ascii l.

(** Read from the end of the command: a quote, the output path, the
    [-sOutputFile=] marker, the gap, and the quoted input path. *)
Definition parse_command (cmd : string) : option (string * string) :=
  match reverse (chars cmd) with
  | q :: l =>
      if is_quote q then
        let '(out, l) := until_quote l in
        match strip_chars (reverse (chars (" " +:+ gap +:+ "-sOutputFile="))) l with
        | Some (q' :: l) =>
            if is_quote q' then
              let '(inp, _) := until_quote l in
              Some (text (reverse inp), text (reverse out))
            else None
        | _ => None
        end
      else None
  | [] => None
  end.

Definition home : string := "/srv/app".

Definition engine (dir cmd : string) (m : gmap string string) : ExecResult :=
  match parse_command cmd with
  | Some (inp, out) =>
      match m !! (dir +:+ "/" +:+ inp) with
      | Some data =>
          if Str.starts_with "%PDF" data
          then mkExec None EmptyString
                 (<[dir +:+ "/" +:+ out := "%PDF-1.4 prepress " +:+ data]> m)
          else mkExec (Some ("Command failed: " +:+ cmd))
                      "Error: not a PDF file" m
      | None => mkExec (Some ("Command failed: " +:+ cmd)) "Error: no input" m
      end
  | None => mkExec (Some ("Command failed: " +:+ cmd)) EmptyString m
  end.

Definition bytes (i : nat) : byte :=
  default x00 (Byte.of_N (N.of_nat (7 * i + 3) mod 256)).

(** The extension of a simple file name: from its last dot on. *)
Definition ext (fname : string) : string :=
  let '(e, rest) := (fix go (l : list ascii) : list ascii * bool :=
                       match l with
                       | [] => ([], false)
                       | c :: l' =>
                           if bool_decide (c = "."%char) then ([c], true)
                           else let '(a, b) := go l' in (c :: a, b)
                       end) (reverse (chars fname)) in
  if rest then text (reverse e) else EmptyString.

Definition env : Env :=
  mkEnv bytes (engine home) (λ _ _, None) (λ _ _, None) ext home home.

(** The same server where the directive cannot be written. *)
Definition env_readonly : Env :=
  mkEnv bytes (engine home)
        (λ _ _, Some "EACCES: permission denied, open 'uploads/setdpi.ps'")
        (λ _ _, None) ext home home.

(** The same server where nothing can be unlinked. *)
Definition env_stuck : Env :=
  mkEnv bytes (engine home) (λ _ _, None)
        (λ _ _, Some "EPERM: operation not permitted, unlink") ext home home.

(** The same server started from another directory. *)
Definition env_elsewhere : Env :=
  mkEnv bytes (engine "/srv") (λ _ _, None) (λ _ _, None) ext "/srv" home.

Definition world : World := mkWorld ∅ 0 [].

Definition pdf (fname data : string) : Part := mkPart fname "application/pdf" data.

(** Two files as multer would have stored them, and the world holding
    them: the first is a PDF, the second is not one. *)
Definition good : MulterFile :=
  mkFile "a.pdf" "application/pdf" "aa.pdf" "uploads/aa.pdf".
Definition bad : MulterFile :=
  mkFile "b.pdf" "application/pdf" "bb.pdf" "uploads/bb.pdf".
Definition late : MulterFile :=
  mkFile "c.pdf" "application/pdf" "cc.pdf" "uploads/cc.pdf".

Definition stored : World :=
  mkWorld (<["/srv/app/uploads/aa.pdf" := "%PDF-AAA"]>
           (<["/srv/app/uploads/bb.pdf" := "oops"]>
            (<["/srv/app/uploads/cc.pdf" := "%PDF-CCC"]> ∅))) 0 [].

End Sample.

(** * Properties *)

(** ** Strings and numerals *)

Lemma str_app_nil_r (s : string) : s +:+ EmptyString = s.
Proof. induction s as [|c s IH]; [done|]. unfold String.app in *; simpl; by rewrite IH. Qed.

Lemma str_app_assoc (a b c : string) : (a +:+ b) +:+ c = a +:+ b +:+ c.
Proof.
  induction a as [|x a IH]; [done|].
  unfold String.app in *; simpl; by rewrite IH.
Qed.

Lemma str_app_cons (c : ascii) (a b : string) : String c a +:+ b = String c (a +:+ b).
Proof. done. Qed.

Lemma str_all_app (P : ascii → bool) (a b : string) :
  Str.all P (a +:+ b) = Str.all P a && Str.all P b.
Proof.
  induction a as [|x a IH]; [done|].
  rewrite str_app_cons; simpl. by rewrite IH, andb_assoc.
Qed.

Lemma str_length_app (a b : string) :
  String.length (a +:+ b) = (String.length a + String.length b)%nat.
Proof. induction a as [|x a IH]; [done|]. rewrite str_app_cons; simpl. by rewrite IH. Qed.

Lemma digit_char_spec (d : Z) :
  0 ≤ d ≤ 9 →
  digit_value (digit_char d) = Some d ∧ is_decimal_digit (digit_char d) = true.
Proof.
  intros Hd.
  assert (d = 0 ∨ d = 1 ∨ d = 2 ∨ d = 3 ∨ d = 4 ∨ d = 5 ∨ d = 6 ∨ d = 7
          ∨ d = 8 ∨ d = 9) as Hc by lia.
  repeat destruct Hc as [->|Hc]; try subst d; by vm_compute.
Qed.

Lemma digits_val_app (a b : string) (v : Z) :
  digits_val (a +:+ b) v = digits_val b (digits_val a v).
Proof. revert v; induction a as [|x a IH]; intros v; [done|]. rewrite str_app_cons; simpl; apply IH. Qed.

Lemma decimal_digit_value (c : ascii) :
  is_decimal_digit c = true → ∃ d, digit_value c = Some d ∧ 0 ≤ d ≤ 9.
Proof.
  unfold is_decimal_digit, digit_value. intros H. rewrite H.
  apply andb_true_iff in H as [H1 H2]. eexists; split; [done|]. lia.
Qed.

Lemma parse_digits_run (ds rest : string) (acc : option Z) :
  Str.all is_decimal_digit ds = true →
  parse_digits 10 (ds +:+ rest) acc =
  parse_digits 10 rest
    (match ds with
     | EmptyString => acc
     | _ => Some (digits_val ds (default 0 acc))
     end).
Proof.
  revert acc. induction ds as [|c ds IH]; intros acc Hall; [done|].
  simpl in Hall. apply andb_true_iff in Hall as [Hc Hall].
  destruct (decimal_digit_value c Hc) as (d & Hd & Hr).
  rewrite str_app_cons. simpl. rewrite Hd. simpl.
  destruct (Z.ltb_spec d 10); [|lia].
  rewrite IH by done. destruct ds; done.
Qed.

Lemma dec_digits_acc (fuel : nat) (n : Z) (acc : string) :
  dec_digits fuel n acc = dec_digits fuel n EmptyString +:+ acc.
Proof.
  revert n acc. induction fuel as [|fuel IH]; intros n acc; [done|].
  simpl. destruct (n <? 10); [done|].
  rewrite IH. rewrite (IH _ (String _ EmptyString)). by rewrite str_app_assoc.
Qed.

Lemma dec_digits_spec (fuel : nat) (n : Z) :
  0 ≤ n < 10 ^ Z.of_nat fuel → fuel ≠ O →
  let ds := dec_digits fuel n EmptyString in
  Str.all is_decimal_digit ds = true ∧ ds ≠ EmptyString ∧
  ∀ v, digits_val ds v = v * 10 ^ Z.of_nat (String.length ds) + n.
Proof.
  revert n. induction fuel as [|fuel IH]; intros n Hn Hfuel; [done|].
  simpl. destruct (Z.ltb_spec n 10) as [Hlt|Hge].
  - rewrite Z.mod_small by lia.
    destruct (digit_char_spec n) as [Hv Hd]; [lia|].
    simpl. rewrite Hd, Hv. split_and!; [done|done|]. intros v; simpl. lia.
  - rewrite dec_digits_acc.
    assert (0 ≤ n / 10 < 10 ^ Z.of_nat fuel) as Hq.
    { rewrite Nat2Z.inj_succ, Z.pow_succ_r in Hn by lia.
      split; [apply Z.div_pos; lia|]. apply Z.div_lt_upper_bound; lia. }
    assert (fuel ≠ O) as Hf.
    { intros ->. assert (1 ≤ n / 10) by (apply Z.div_le_lower_bound; lia).
      simpl in Hq. lia. }
    destruct (IH _ Hq Hf) as (Hall & Hne & Hval).
    destruct (digit_char_spec (n mod 10)) as [Hv Hd]; [pose proof (Z.mod_pos_bound n 10); lia|].
    split_and!.
    + rewrite str_all_app, Hall. simpl. by rewrite Hd.
    + destruct (dec_digits fuel (n / 10) EmptyString); done.
    + intros v. rewrite digits_val_app, Hval. simpl. rewrite Hv. simpl.
      rewrite str_length_app. simpl.
      rewrite Nat2Z.inj_add, Z.pow_add_r by lia.
      change (Z.of_nat 1) with 1. rewrite Z.pow_1_r.
      pose proof (Z.div_mod n 10). lia.
Qed.

Lemma log2_fuel (n : Z) : 0 ≤ n → n < 10 ^ Z.of_nat (S (Z.to_nat (Z.log2 n))).
Proof.
  intros Hn. destruct (decide (n = 0)) as [->|Hne]; [by vm_compute|].
  pose proof (Z.log2_nonneg n).
  rewrite Nat2Z.inj_succ, Z2Nat.id by done.
  destruct (Z.log2_spec n) as [_ Hlt]; [lia|].
  eapply Z.lt_le_trans; [exact Hlt|].
  apply Z.pow_le_mono_l. lia.
Qed.

(** The decimal text of a natural number: digits only, read back exactly. *)
Lemma number_to_string_nonneg (z : Z) :
  0 ≤ z →
  let ds := number_to_string z in
  Str.all is_decimal_digit ds = true ∧ ds ≠ EmptyString ∧
  ∀ rest acc, parse_digits 10 (ds +:+ rest) acc =
              parse_digits 10 rest
                (Some (default 0 acc * 10 ^ Z.of_nat (String.length ds) + z)).
Proof.
  intros Hz. unfold number_to_string.
  destruct (Z.ltb_spec z 0); [lia|].
  destruct (dec_digits_spec _ z (conj Hz (log2_fuel z Hz))) as (Hall & Hne & Hval);
    [done|].
  split_and!; [done..|].
  intros rest acc. rewrite parse_digits_run by done.
  rewrite Hval. destruct (dec_digits _ z EmptyString); done.
Qed.

Lemma read_number_to_string (z : Z) : read_decimal (number_to_string z) = Some z.
Proof.
  unfold read_decimal.
  destruct (Z.ltb_spec z 0) as [Hneg|Hpos].
  - unfold number_to_string. destruct (Z.ltb_spec z 0); [|lia].
    fold (number_to_string (- z)).
    assert (number_to_string (- z) =
            dec_digits (S (Z.to_nat (Z.log2 (- z)))) (- z) EmptyString) as Heq.
    { unfold number_to_string. destruct (Z.ltb_spec (- z) 0); [lia|done]. }
    rewrite <- Heq.
    destruct (number_to_string_nonneg (- z)) as (Hall & Hne & Hparse); [lia|].
    rewrite Hall. specialize (Hparse EmptyString None).
    rewrite str_app_nil_r in Hparse. rewrite Hparse. simpl. f_equal. lia.
  - destruct (number_to_string_nonneg z Hpos) as (Hall & Hne & Hparse).
    assert (∀ r, number_to_string z ≠ String "-" r) as Hnm.
    { intros r Hr. rewrite Hr in Hall. simpl in Hall. done. }
    destruct (number_to_string z) as [|c r] eqn:Hs; [done|].
    destruct (decide (c = "-"%char)) as [->|Hc]; [by destruct (Hnm r)|].
    assert ((let '(sign, body) :=
               match String c r with
               | String "-" r0 => (-1, r0)
               | _ => (1, String c r)
               end%char in
             if Str.all is_decimal_digit body
             then (λ m, sign * m) <$> parse_digits 10 body None else None)
            = (if Str.all is_decimal_digit (String c r)
               then (λ m, 1 * m) <$> parse_digits 10 (String c r) None else None)) as ->.
    { destruct c as [[] [] [] [] [] [] [] []]; try done. }
    rewrite Hall. specialize (Hparse EmptyString None).
    rewrite str_app_nil_r in Hparse. rewrite Hparse. simpl. f_equal. lia.
Qed.

(** ** What [parseInt] reads *)

Lemma parse_digits_no_digit (s : string) :
  match s with
  | String c _ => is_decimal_digit c = false
  | EmptyString => True
  end →
  parse_digits 10 s None = None.
Proof.
  destruct s as [|c r]; [done|]. intros Hc. simpl.
  unfold digit_value, is_decimal_digit in *. rewrite Hc.
  set (n := Z.of_N (N_of_ascii c)) in *.
  destruct ((97 <=? n) && (n <=? 122)) eqn:H1.
  - apply andb_true_iff in H1 as [H1 _].
    destruct (Z.ltb_spec (n - 97 + 10) 10); [lia|done].
  - destruct ((65 <=? n) && (n <=? 90)) eqn:H2; [|done].
    apply andb_true_iff in H2 as [H2 _].
    destruct (Z.ltb_spec (n - 65 + 10) 10); [lia|done].
Qed.

Lemma parseInt_no_leading_digit (s : string) :
  has_leading_digit s = false → parseInt s = NaN.
Proof.
  unfold has_leading_digit, parseInt.
  destruct (trim_start s) as [|c r]; [done|].
  assert (∀ x : string,
            match x with String c _ => is_decimal_digit c | EmptyString => false end
            = false →
            ∀ sign : Z,
              (let '(radix, s0) :=
                 match x with
                 | String "0" (String "x" r0) | String "0" (String "X" r0) => (16, r0)
                 | _ => (10, x)
                 end%char in
               match parse_digits radix s0 None with
               | None => NaN
               | Some m => Int (sign * m)
               end) = NaN) as Hbody.
  { intros x Hx sign. destruct x as [|d x]; [done|].
    destruct (decide (d = "0"%char)) as [->|Hd]; [done|].
    assert ((let '(radix, s0) :=
               match String d x with
               | String "0" (String "x" r0) | String "0" (String "X" r0) => (16, r0)
               | _ => (10, String d x)
               end%char in
             match parse_digits radix s0 None with
             | None => NaN
             | Some m => Int (sign * m)
             end) =
            match parse_digits 10 (String d x) None with
            | None => NaN
            | Some m => Int (sign * m)
            end) as ->.
    { destruct d as [[] [] [] [] [] [] [] []]; done. }
    by rewrite parse_digits_no_digit. }
  destruct (decide (c = "-"%char)) as [->|Hm]; [intros Hc; exact (Hbody r Hc (-1))|].
  destruct (decide (c = "+"%char)) as [->|Hp]; [intros Hc; exact (Hbody r Hc 1)|].
  intros Hc.
  assert (match String c r with
          | String "-" r0 => (-1, r0)
          | String "+" r0 => (1, r0)
          | _ => (1, String c r)
          end%char = (1, String c r)) as ->.
  { destruct c as [[] [] [] [] [] [] [] []]; done. }
  assert (is_decimal_digit c = false) as Hc'.
  { destruct c as [[] [] [] [] [] [] [] []]; done. }
  exact (Hbody (String c r) Hc' 1).
Qed.

(** A decimal numeral is read back by [parseInt] as the number it prints. *)
Lemma parseInt_number_to_string (z : Z) : parseInt (number_to_string z) = Int z.
Proof.
  assert (∀ n, 0 ≤ n → ∀ sign,
            (let '(radix, s0) :=
               match number_to_string n with
               | String "0" (String "x" r0) | String "0" (String "X" r0) => (16, r0)
               | _ => (10, number_to_string n)
               end%char in
             match parse_digits radix s0 None with
             | None => NaN
             | Some m => Int (sign * m)
             end) = Int (sign * n)) as Hbody.
  { intros n Hn sign.
    destruct (number_to_string_nonneg n Hn) as (Hall & Hne & Hparse).
    specialize (Hparse EmptyString None). rewrite str_app_nil_r in Hparse.
    destruct (number_to_string n) as [|c [|d r]] eqn:Hs; [done| |].
    - assert ((let '(radix, s0) :=
                 match String c EmptyString with
                 | String "0" (String "x" r0) | String "0" (String "X" r0) => (16, r0)
                 | _ => (10, String c EmptyString)
                 end%char in
               match parse_digits radix s0 None with
               | None => NaN
               | Some m => Int (sign * m)
               end) =
              match parse_digits 10 (String c EmptyString) None with
              | None => NaN
              | Some m => Int (sign * m)
              end) as ->.
      { destruct c as [[] [] [] [] [] [] [] []]; done. }
      rewrite Hparse. cbn [parse_digits default]. f_equal; lia.
    - assert (is_decimal_digit d = true) as Hd.
      { simpl in Hall. by repeat (apply andb_true_iff in Hall as [? Hall]). }
      assert ((let '(radix, s0) :=
                 match String c (String d r) with
                 | String "0" (String "x" r0) | String "0" (String "X" r0) => (16, r0)
                 | _ => (10, String c (String d r))
                 end%char in
               match parse_digits radix s0 None with
               | None => NaN
               | Some m => Int (sign * m)
               end) =
              match parse_digits 10 (String c (String d r)) None with
              | None => NaN
              | Some m => Int (sign * m)
              end) as ->.
      { destruct (decide (d = "x"%char)) as [->|Hx]; [done|].
        destruct (decide (d = "X"%char)) as [->|HX]; [done|].
        destruct c as [[] [] [] [] [] [] [] []]; try done;
          destruct d as [[] [] [] [] [] [] [] []]; done. }
      rewrite Hparse. cbn [parse_digits default]. f_equal; lia. }
  unfold parseInt.
  assert (∀ n, 0 ≤ n → trim_start (number_to_string n) = number_to_string n ∧
                        ∀ r, number_to_string n ≠ String "-" r ∧
                             number_to_string n ≠ String "+" r) as Hplain.
  { intros n Hn. destruct (number_to_string_nonneg n Hn) as (Hall & Hne & _).
    destruct (number_to_string n) as [|c r]; [done|].
    simpl in Hall. apply andb_true_iff in Hall as [Hc _].
    split; [|intros r'; split; intros [= -> _]; done].
    simpl. destruct c as [[] [] [] [] [] [] [] []]; done. }
  destruct (Z.ltb_spec z 0) as [Hneg|Hpos].
  - assert (number_to_string z = String "-" (number_to_string (- z))) as ->.
    { unfold number_to_string.
      destruct (Z.ltb_spec z 0); [|lia]. destruct (Z.ltb_spec (- z) 0); [lia|done]. }
    cbn [trim_start is_js_whitespace]. rewrite Hbody by lia. f_equal. lia.
  - destruct (Hplain z Hpos) as [-> Hsign].
    assert (match number_to_string z with
            | String "-" r => (-1, r)
            | String "+" r => (1, r)
            | _ => (1, number_to_string z)
            end%char = (1, number_to_string z)) as ->.
    { destruct (number_to_string z) as [|c r]; [done|].
      destruct (decide (c = "-"%char)) as [->|Hm]; [by destruct (Hsign r)|].
      destruct (decide (c = "+"%char)) as [->|Hp]; [by destruct (Hsign r)|].
      destruct c as [[] [] [] [] [] [] [] []]; done. }
    rewrite Hbody by done. f_equal. lia.
Qed.

(** ** Pieces of a text *)

Lemma split_nonempty (sep : ascii → bool) (s : string) : split sep s ≠ [].
Proof. destruct s as [|c s]; [done|]. simpl. by repeat case_match. Qed.

Lemma split_app (sep : ascii → bool) (x y : string) :
  split sep (x +:+ y) = glue (split sep x) (split sep y).
Proof.
  induction x as [|c x IH].
  - change (EmptyString +:+ y) with y. simpl.
    pose proof (split_nonempty sep y). by destruct (split sep y).
  - rewrite str_app_cons. cbn [split]. rewrite IH.
    pose proof (split_nonempty sep x) as Hx.
    pose proof (split_nonempty sep y) as Hy.
    destruct (sep c).
    + by destruct (split sep x).
    + destruct (split sep x) as [|a [|b l]]; [done| |done].
      by destruct (split sep y).
Qed.

Lemma split_plain (sep : ascii → bool) (s : string) :
  Str.all (λ c, negb (sep c)) s = true → split sep s = [s].
Proof.
  induction s as [|c s IH]; [done|].
  simpl. intros [Hc Hs]%andb_true_iff.
  apply negb_true_iff in Hc. rewrite Hc. by rewrite IH.
Qed.

Lemma all_impl (P Q : ascii → bool) (s : string) :
  (∀ c, P c = true → Q c = true) → Str.all P s = true → Str.all Q s = true.
Proof.
  intros HPQ. induction s as [|c s IH]; [done|].
  simpl. intros [Hc Hs]%andb_true_iff. by rewrite HPQ, IH.
Qed.

(** A printed number holds digits, after a minus sign at most. *)
Lemma number_to_string_chars (z : Z) :
  Str.all (λ c, is_decimal_digit c || bool_decide (c = "-"%char))
    (number_to_string z) = true.
Proof.
  assert (∀ n, 0 ≤ n →
            Str.all (λ c, is_decimal_digit c || bool_decide (c = "-"%char))
              (number_to_string n) = true) as Hpos.
  { intros n Hn. destruct (number_to_string_nonneg n Hn) as (Hall & _).
    eapply all_impl; [|exact Hall]. by intros c ->. }
  destruct (Z.ltb_spec z 0) as [Hneg|Hge]; [|by apply Hpos].
  assert (number_to_string z = String "-" (number_to_string (- z))) as ->.
  { unfold number_to_string.
    destruct (Z.ltb_spec z 0); [|lia]. destruct (Z.ltb_spec (- z) 0); [lia|done]. }
  simpl. apply Hpos. lia.
Qed.

Lemma split_number (sep : ascii → bool) (z : Z) :
  (∀ c, is_decimal_digit c || bool_decide (c = "-"%char) = true → sep c = false) →
  split sep (number_to_string z) = [number_to_string z].
Proof.
  intros Hsep. apply split_plain.
  eapply all_impl; [|apply number_to_string_chars].
  intros c Hc. by rewrite (Hsep c Hc).
Qed.

Lemma blank_not_in_number (c : ascii) :
  is_decimal_digit c || bool_decide (c = "-"%char) = true → is_blank c = false.
Proof. destruct c as [[] [] [] [] [] [] [] []]; done. Qed.

Lemma newline_not_in_number (c : ascii) :
  is_decimal_digit c || bool_decide (c = "-"%char) = true → is_newline c = false.
Proof. destruct c as [[] [] [] [] [] [] [] []]; done. Qed.

(** *** The directive, line by line *)

Lemma directive_lines (t : Z) :
  split is_newline (psContent t) =
    let n := [number_to_string t] in
    glue (split is_newline psContent_head)
      (glue n (glue (split is_newline psContent_gray)
         (glue n (glue (split is_newline psContent_mono)
            (glue n (split is_newline psContent_tail)))))).
Proof.
  unfold psContent. rewrite !split_app.
  by rewrite (split_number is_newline t newline_not_in_number).
Qed.

Lemma directive_entries (t : Z) :
  let d := psContent t in
  entry "/ColorImageResolution" d = Some (number_to_string t) ∧
  entry "/GrayImageResolution" d = Some (number_to_string t) ∧
  entry "/MonoImageResolution" d = Some (number_to_string t) ∧
  entry "/DownsampleColorImages" d = Some "false" ∧
  entry "/DownsampleGrayImages" d = Some "false" ∧
  entry "/DownsampleMonoImages" d = Some "false" ∧
  entry "/ColorImageDownsampleType" d = Some "/None" ∧
  entry "/GrayImageDownsampleType" d = Some "/None" ∧
  entry "/MonoImageDownsampleType" d = Some "/None" ∧
  entry "/ColorImageFilter" d = Some "/FlateEncode" ∧
  entry "/GrayImageFilter" d = Some "/FlateEncode" ∧
  entry "/MonoImageFilter" d = Some "/CCITTFaxEncode".
Proof.
  cbn zeta. unfold entry. rewrite directive_lines. cbn zeta.
  generalize (number_to_string t) as n. intros n.
  assert (∀ a : string, (a +:+ EmptyString) = a) as Hnil by apply str_app_nil_r.
  repeat split; vm_compute; try reflexivity; exact (f_equal Some (Hnil n)).
Qed.

Lemma directive_metadata (t : Z) :
  let d := psContent t in
  entry "/Title" d = Some "(Set DPI)" ∧
  entry "/Author" d = Some "(PDF Processor)" ∧
  entry "/Creator" d = Some "(PDF DPI Setter)" ∧
  entry "/Producer" d = Some "(Ghostscript)" ∧
  entry "/ModDate" d = Some "(D:20240214)" ∧
  entry "/CreationDate" d = Some "(D:20240214)" ∧
  entry "/Subject" d = Some "(DPI Modified PDF)" ∧
  entry "/Keywords" d = Some "(DPI, PDF)".
Proof.
  cbn zeta. unfold entry. rewrite directive_lines. cbn zeta.
  generalize (number_to_string t) as n. intros n.
  repeat split; vm_compute; reflexivity.
Qed.

(** *** The command line, word by word *)

Lemma command_arguments (ps inp out : string) (t : Z) :
  argument "-dDEVICEXRESOLUTION=" (command ps inp out t) = Some (number_to_string t) ∧
  argument "-dDEVICEYRESOLUTION=" (command ps inp out t) = Some (number_to_string t).
Proof.
  unfold argument, command. rewrite !split_app.
  rewrite (split_number is_blank t blank_not_in_number).
  generalize (number_to_string t) as n. intros n.
  generalize (split is_blank ps) as lp. intros lp.
  generalize (split is_blank inp) as li. intros li.
  generalize (split is_blank out) as lo. intros lo.
  assert (∀ a : string, (a +:+ EmptyString) = a) as Hnil by apply str_app_nil_r.
  split; vm_compute; exact (f_equal Some (Hnil n)).
Qed.

Lemma command_resolution (ps inp out : string) (t : Z) :
  device_resolution "X" (command ps inp out t) = Some t ∧
  device_resolution "Y" (command ps inp out t) = Some t.
Proof.
  destruct (command_arguments ps inp out t) as [Hx Hy].
  unfold device_resolution.
  change ("-dDEVICE" +:+ "X" +:+ "RESOLUTION=") with "-dDEVICEXRESOLUTION=".
  change ("-dDEVICE" +:+ "Y" +:+ "RESOLUTION=") with "-dDEVICEYRESOLUTION=".
  rewrite Hx, Hy. cbn [mbind option_bind]. by rewrite read_number_to_string.
Qed.

(** ** Tokens *)

Lemma hex_digit_lower (n : N) : is_lower_hex (hex_digit n) = true.
Proof.
  unfold hex_digit.
  destruct (decide (n < 16)%N) as [Hlt|Hge].
  - assert (∃ k, (k < 16)%nat ∧ n = N.of_nat k) as (k & Hk & ->).
    { exists (N.to_nat n). split; lia. }
    rewrite Nat2N.id.
    do 16 (destruct k as [|k]; [by vm_compute|]). lia.
  - assert (∃ k, N.to_nat n = (16 + k)%nat) as [k ->].
    { exists (N.to_nat n - 16)%nat. lia. }
    done.
Qed.

Lemma hex_length (buf : list byte) : String.length (hex buf) = (2 * length buf)%nat.
Proof. induction buf as [|b buf IH]; [done|]. simpl. rewrite IH. lia. Qed.

Lemma hex_lower (buf : list byte) : Str.all is_lower_hex (hex buf) = true.
Proof.
  induction buf as [|b buf IH]; [done|].
  simpl. by rewrite !hex_digit_lower, IH.
Qed.

(** ** Paths of outputs *)

Lemma ends_with_slash_app (a b : string) :
  b ≠ EmptyString → Path.ends_with_slash (a +:+ b) = Path.ends_with_slash b.
Proof.
  intros Hb. induction a as [|c a IH]; [done|].
  rewrite str_app_cons. cbn [Path.ends_with_slash]. rewrite IH.
  destruct (a +:+ b) as [|d s] eqn:Heq; [|done].
  destruct a; [by subst|done].
Qed.

Lemma no_slash_at_end (s : string) :
  Str.all (λ c, negb (Path.is_slash c)) s = true → Path.ends_with_slash s = false.
Proof.
  induction s as [|c s IH]; [done|].
  cbn [Str.all Path.ends_with_slash]. intros [Hc Hs]%andb_true_iff.
  destruct s; [by apply negb_true_iff|by apply IH].
Qed.

Lemma is_plain_spec (s : string) :
  Path.is_plain s = true →
  Str.all (λ c, negb (Path.is_slash c)) s = true ∧
  s ≠ EmptyString ∧ s ≠ "." ∧ s ≠ "..".
Proof.
  unfold Path.is_plain. intros [Hs Hd]%andb_true_iff.
  apply bool_decide_eq_true in Hd. done.
Qed.

Lemma push_plain (above : bool) (res : list string) (s : string) :
  Path.is_plain s = true → Path.push above res s = s :: res.
Proof.
  intros (_ & Hne & Hdot & Hdd)%is_plain_spec. unfold Path.push.
  destruct (decide (s = EmptyString ∨ s = ".")) as [[?|?]|_]; [done..|].
  by destruct (decide (s = "..")).
Qed.

(** Below "output", a plain name is joined as it is. *)
Lemma join_output_plain (fname : string) :
  Path.is_plain fname = true → Path.join ["output"; fname] = "output/" +:+ fname.
Proof.
  intros Hplain.
  pose proof (is_plain_spec _ Hplain) as (Hs & Hne & _).
  unfold Path.join.
  rewrite filter_cons_True by done. rewrite filter_cons_True by done.
  rewrite filter_nil.
  change (String.concat "/" ["output"; fname]) with ("output/" +:+ fname).
  unfold Path.normalize.
  destruct (decide ("output/" +:+ fname = EmptyString)) as [|_]; [done|].
  change (Path.isAbsolute ("output/" +:+ fname)) with false.
  cbn [negb]. unfold Path.normalizeString.
  change (split Path.is_slash ("output/" +:+ fname))
    with ("output" :: split Path.is_slash fname).
  rewrite split_plain by done.
  cbn [foldl]. change (Path.push true [] "output") with ["output"].
  rewrite push_plain by done.
  change (reverse [fname; "output"]) with ["output"; fname].
  change (String.concat "/" ["output"; fname]) with ("output/" +:+ fname).
  destruct (decide ("output/" +:+ fname = EmptyString)) as [|_]; [done|].
  rewrite ends_with_slash_app, no_slash_at_end by done.
  change (EmptyString +:+ ?x) with x. apply str_app_nil_r.
Qed.

Lemma under_output_plain (dir fname : string) :
  Path.is_plain fname = true →
  Path.under dir ("output/" +:+ fname) = dir +:+ "/" +:+ "output" +:+ "/" +:+ fname.
Proof.
  intros Hplain.
  pose proof (is_plain_spec _ Hplain) as (Hs & Hne & Hdot & _).
  unfold Path.under.
  change (split Path.is_slash ("output/" +:+ fname))
    with ("output" :: split Path.is_slash fname).
  rewrite split_plain by done.
  change (Path.ascend dir ["output"; fname]) with (dir, ["output"; fname]).
  cbn iota. rewrite filter_cons_True by done.
  rewrite filter_cons_True by done. rewrite filter_nil.
  change (String.concat EmptyString (String.app "/" <$> ["output"; fname]))
    with ("/output/" +:+ fname).
  rewrite ends_with_slash_app, no_slash_at_end by done.
  rewrite str_app_nil_r.
  destruct (decide (dir +:+ "/output/" +:+ fname = EmptyString)) as [Heq|_]; [|done].
  apply (f_equal String.length) in Heq. rewrite !str_length_app in Heq.
  cbn in Heq. lia.
Qed.

Lemma last_glue (l1 l2 : list string) (x : string) :
  l2 ≠ [] → last (glue l1 (x :: l2)) = last l2.
Proof.
  intros Hl2. induction l1 as [|a l1 IH].
  - cbn [glue]. by destruct l2.
  - destruct l1 as [|b l1].
    + cbn [glue]. by destruct l2.
    + change (glue (a :: b :: l1) (x :: l2)) with (a :: glue (b :: l1) (x :: l2)).
      rewrite <- IH. destruct (glue (b :: l1) (x :: l2)) eqn:Hg; [|done].
      by destruct l1.
Qed.

(** The last segment of a path that ends in a slash and a plain name. *)
Lemma basename_plain (dir fname : string) :
  Str.all (λ c, negb (Path.is_slash c)) fname = true →
  Path.basename (dir +:+ "/" +:+ fname) = fname.
Proof.
  intros Hs. unfold Path.basename. rewrite split_app.
  change (split Path.is_slash ("/" +:+ fname))
    with (EmptyString :: split Path.is_slash fname).
  rewrite (split_plain _ fname) by done. by rewrite last_glue.
Qed.



(** A file at a path that ends in a slash and a plain name is found by
    [fs.access], and sent unless its name starts with a dot. *)
Lemma access_file (m : gmap string string) (dir fname body : string) :
  Path.is_plain fname = true →
  m !! (dir +:+ "/" +:+ fname) = Some body →
  fs_access m (dir +:+ "/" +:+ fname) = true ∧
  res_download m (dir +:+ "/" +:+ fname) =
    if Str.starts_with "." fname then Unhandled404 else Download200 body.
Proof.
  intros Hplain Hbody.
  pose proof (is_plain_spec _ Hplain) as (Hs & Hne & _).
  assert (Path.ends_with_slash (dir +:+ "/" +:+ fname) = false) as Hend.
  { rewrite <- str_app_assoc, ends_with_slash_app by done.
    by apply no_slash_at_end. }
  unfold fs_access, res_download, Path.without_trailing_slash.
  rewrite Hend, Hbody. rewrite bool_decide_eq_true_2 by eauto.
  split; [done|]. destruct (decide (dir +:+ "/" +:+ fname = "/")) as [Heq|_].
  { apply (f_equal String.length) in Heq. rewrite !str_length_app in Heq.
    destruct fname; [done|]. cbn in Heq. lia. }
  by rewrite basename_plain.
Qed.


Section Facts.

Context `{Env}.

Lemma token_at_is_token (k : nat) : is_token (token_at k).
Proof.
  split; [|apply hex_lower].
  unfold token_at. by rewrite hex_length, length_fmap, length_seq.
Qed.

(** *** Paths *)

Lemma resolve_inj (a b : string) : resolve a = resolve b → a = b.
Proof.
  unfold resolve. intros Heq.
  apply (inj (String.app cwd)) in Heq. by apply (inj (String.app "/")) in Heq.
Qed.

Lemma psFile_not_output (p : string) : is_output p → p ≠ resolve psFile.
Proof. intros [n ->] Heq. apply resolve_inj in Heq. done. Qed.

Lemma staged_not_output (f : MulterFile) (p : string) :
  staged f → is_output p → p ≠ resolve (path f).
Proof. intros Hs [n ->] Heq. apply resolve_inj in Heq. rewrite Hs in Heq. done. Qed.

(** After the directive, an attempt writes no other file. *)
Lemma written_texts_after (cmd : string) (evs : list Event) :
  Forall (λ e, e = Exec cmd ∨ e = Unlink psFile ∨ ∃ args, e = ConsoleError args) evs →
  written_texts evs = [].
Proof.
  induction 1 as [|e evs He _ IH]; [done|].
  destruct He as [->|[->|[args ->]]]; exact IH.
Qed.

(** *** The steps of one conversion *)

Lemma unlinked_other (p q : string) (m : gmap string string) :
  q ≠ resolve p → unlinked p m !! q = m !! q.
Proof.
  intros Hq. unfold unlinked. destruct (unlink_error _ _); [done|].
  by apply lookup_delete_ne.
Qed.

Lemma unlinked_absent (p q : string) (m : gmap string string) :
  m !! q = None → unlinked p m !! q = None.
Proof.
  intros Hq. unfold unlinked. destruct (unlink_error _ _); [done|].
  destruct (decide (resolve p = q)) as [->|Hne]; [apply lookup_delete_eq|].
  by rewrite lookup_delete_ne.
Qed.

Lemma unlinked_gone (p : string) (m : gmap string string) :
  unlink_reliable → unlinked p m !! resolve p = None.
Proof. intros Hrel. unfold unlinked. rewrite Hrel. apply lookup_delete_eq. Qed.

(** An unlink whose failure is only logged: the file is gone unless the
    unlink failed with the file there, and the log grows by the attempt
    and, after a failure, by a line of the console. *)
Lemma unlink_run (p : string) (labels : list string) (w : World) :
  ∃ tail,
    catch_log (fs_unlink p) labels w =
      mkWorld (unlinked p (fs w)) (drawn w) (events w ++ Unlink p :: tail)
    ∧ Forall (λ e, ∃ args, e = ConsoleError args) tail.
Proof.
  unfold catch_log, fs_unlink, console_error, log, unlinked. cbn [fs drawn events].
  destruct (fs w !! resolve p) as [c|] eqn:Hp.
  - destruct (unlink_error _ _) as [e|].
    + eexists [_]. cbn [fs drawn events]. rewrite <- (assoc_L (++)).
      split; [done|]. apply Forall_singleton. by eexists.
    + exists []. split; [done|constructor].
  - eexists [_]. cbn [fs drawn events]. rewrite <- (assoc_L (++)).
    split; [|apply Forall_singleton; by eexists].
    destruct (unlink_error _ _); [done|]. by rewrite delete_id.
Qed.

Lemma setPdfDPI_run (inp out : string) (t : Z) (w : World) :
  setPdfDPI inp out t w =
    let cmd := command psFile inp out t in
    match write_error (resolve psFile) (fs w) with
    | Some e =>
        (Rejected ("Failed to create PostScript file: " +:+ e),
         log (WriteFile psFile (psContent t)) w)
    | None =>
        let r := gs cmd (<[resolve psFile := psContent t]> (fs w)) in
        let w' :=
          catch_log (fs_unlink psFile) []
            (mkWorld (exec_fs r) (drawn w)
               ((events w ++ [WriteFile psFile (psContent t)]) ++ [Exec cmd])) in
        match exec_error r with
        | Some e =>
            (Rejected ("Failed to set PDF DPI: " +:+ e),
             console_error ["Ghostscript error:"; exec_stderr r] w')
        | None => (Resolved (), w')
        end
    end.
Proof.
  unfold setPdfDPI, try_catch, throw, exec, fs_writeFile, log,
    mbind, M_bind, mret, M_ret. cbn [fs drawn events].
  destruct (write_error _ _); [done|]. cbn [fs drawn events].
  by destruct (exec_error _).
Qed.

Lemma convert_file_run (t : Z) (f : MulterFile) (rs : list ConversionResult)
    (w : World) :
  convert_file t f rs w =
    let tok := token_at (drawn w) in
    let cleanup := catch_log (fs_unlink (path f)) ["Cleanup error:"] in
    match setPdfDPI (path f) (path_join "output" (tok +:+ ".pdf")) t
            (mkWorld (fs w) (drawn w + 16) (events w)) with
    | (Resolved _, w') => (Resolved (rs ++ [conversion_result t f tok]), cleanup w')
    | (Rejected e, w') =>
        (Rejected e, cleanup (console_error ["Processing error:"; e] w'))
    end.
Proof.
  unfold convert_file, try_finally, try_catch, randomBytes,
    mbind, M_bind, mret, M_ret. cbn [fs drawn events].
  fold (token_at (drawn w)).
  destruct (setPdfDPI _ _ _ _) as [[[]|e] w']; done.
Qed.

(** What a call of [setPdfDPI] leaves: the directive was written first, at
    most one engine run follows, and nothing else is touched. *)
Lemma setPdfDPI_spec (inp out : string) (t : Z) (w : World) r w' :
  setPdfDPI inp out t w = (r, w') →
  drawn w' = drawn w ∧
  (∃ evs, events w' = events w ++ WriteFile psFile (psContent t) :: evs ∧
          Forall (λ e, e = Exec (command psFile inp out t) ∨ e = Unlink psFile ∨
                       ∃ args, e = ConsoleError args) evs) ∧
  (∀ p, p ≠ resolve psFile →
        (∀ m, exec_fs (gs (command psFile inp out t) m) !! p = m !! p) →
        fs w' !! p = fs w !! p).
Proof.
  rewrite setPdfDPI_run. cbn zeta.
  destruct (write_error _ _) as [e|] eqn:Hw.
  { intros [= <- <-]. split_and!; [done| |done].
    exists []. split; [done|constructor]. }
  destruct (unlink_run psFile []
    (mkWorld (exec_fs (gs (command psFile inp out t)
                         (<[resolve psFile := psContent t]> (fs w)))) (drawn w)
       ((events w ++ [WriteFile psFile (psContent t)]) ++
        [Exec (command psFile inp out t)]))) as (tail & -> & Htail).
  cbn [fs drawn events].
  assert (Forall (λ e, e = Exec (command psFile inp out t) ∨ e = Unlink psFile ∨
                       ∃ args, e = ConsoleError args) tail) as Htail'.
  { eapply Forall_impl; [exact Htail|]. intros e [args ->]; eauto. }
  assert (∀ p, p ≠ resolve psFile →
          (∀ m, exec_fs (gs (command psFile inp out t) m) !! p = m !! p) →
          unlinked psFile
            (exec_fs (gs (command psFile inp out t)
                        (<[resolve psFile := psContent t]> (fs w)))) !! p
          = fs w !! p) as Hfs.
  { intros p Hp Hframe.
    rewrite unlinked_other by done. rewrite Hframe.
    by rewrite lookup_insert_ne. }
  destruct (exec_error _) as [e|]; intros [= <- <-];
    unfold console_error, log; cbn [fs drawn events];
    (split_and!; [done| |done]).
  - eexists. rewrite <- !(assoc_L (++)). split; [done|].
    repeat (apply Forall_cons; split; [by eauto|]).
    apply Forall_app; split; [done|]. apply Forall_singleton. eauto.
  - eexists. rewrite <- !(assoc_L (++)). split; [done|].
    by repeat (apply Forall_cons; split; [by eauto|]).
Qed.

Lemma convert_file_spec (t : Z) (f : MulterFile) rs (w : World) r w' :
  convert_file t f rs w = (r, w') →
  drawn w' = (drawn w + 16)%nat ∧
  (∃ evs, events w' = events w ++ evs ∧
          Forall (file_event t f (token_at (drawn w))) evs) ∧
  (unlink_reliable → fs w' !! resolve (path f) = None) ∧
  match r with
  | Resolved rs' => rs' = rs ++ [conversion_result t f (token_at (drawn w))]
  | Rejected _ => True
  end ∧
  (engine_frame →
   ∀ p, p ≠ resolve psFile → p ≠ resolve (path f) →
        p ≠ output_path (token_at (drawn w) +:+ ".pdf") →
        fs w' !! p = fs w !! p).
Proof.
  rewrite convert_file_run. cbn zeta.
  destruct (setPdfDPI _ _ _ _) as [r0 w0] eqn:Hset.
  apply setPdfDPI_spec in Hset as (Hd & (evs & Hev & Hall) & Hframe).
  cbn [fs drawn events] in *.
  assert (Forall (file_event t f (token_at (drawn w)))
            (WriteFile psFile (psContent t) :: evs)) as Hall'.
  { constructor; [done|]. eapply Forall_impl; [exact Hall|].
    intros e [->|[->|[args ->]]]; simpl; auto. }
  destruct r0 as [[]|e].
  - destruct (unlink_run (path f) ["Cleanup error:"] w0) as (tail & -> & Htail).
    intros [= <- <-]. cbn [fs drawn events].
    split_and!; [done| |by apply unlinked_gone|done|].
    + eexists. rewrite Hev, <- (assoc_L (++)). split; [done|].
      apply Forall_app; split; [done|].
      constructor; [by right|]. eapply Forall_impl; [exact Htail|].
      by intros e [args ->].
    + intros Hfr p H1 H2 H3. rewrite unlinked_other by done.
      apply Hframe; [done|]. intros m. apply Hfr; [apply token_at_is_token|done].
  - destruct (unlink_run (path f) ["Cleanup error:"]
                (console_error ["Processing error:"; e] w0)) as (tail & -> & Htail).
    intros [= <- <-]. unfold console_error, log. cbn [fs drawn events].
    split_and!; [done| |by apply unlinked_gone|done|].
    + eexists. rewrite Hev, <- !(assoc_L (++)). split; [done|].
      apply Forall_app; split; [done|].
      constructor; [done|]. constructor; [by right|].
      eapply Forall_impl; [exact Htail|]. by intros e' [args ->].
    + intros Hfr p H1 H2 H3. rewrite unlinked_other by done.
      apply Hframe; [done|]. intros m. apply Hfr; [apply token_at_is_token|done].
Qed.

(** *** The batch loop *)

Lemma convert_files_app (t : Z) (pre post : list MulterFile) rs (w : World) :
  convert_files t (pre ++ post) rs w =
    match convert_files t pre rs w with
    | (Resolved rs1, w1) => convert_files t post rs1 w1
    | (Rejected e, w1) => (Rejected e, w1)
    end.
Proof.
  revert rs w. induction pre as [|f pre IH]; intros rs w; [done|].
  simpl. unfold mbind, M_bind.
  destruct (convert_file t f rs w) as [[rs1|e] w1]; [apply IH|done].
Qed.

(** A batch that fails does so at one file, after the files before it
    were converted. *)
Lemma convert_files_rejected (t : Z) (files : list MulterFile) rs (w : World) e w' :
  convert_files t files rs w = (Rejected e, w') →
  ∃ pre f post rs1 w1,
    files = pre ++ f :: post ∧
    convert_files t pre rs w = (Resolved rs1, w1) ∧
    convert_file t f rs1 w1 = (Rejected e, w').
Proof.
  revert rs w. induction files as [|f files IH]; intros rs w; [done|].
  simpl. unfold mbind, M_bind.
  destruct (convert_file t f rs w) as [[rs1|e1] w1] eqn:Hf.
  - intros Hrest. destruct (IH _ _ Hrest) as (pre & g & post & rs2 & w2 & -> & Hpre & Hg).
    exists (f :: pre), g, post, rs2, w2. split_and!; [done| |done].
    simpl. unfold mbind, M_bind. by rewrite Hf.
  - intros [= -> ->]. by exists [], f, files, rs, w.
Qed.

Lemma convert_files_events (t : Z) (files : list MulterFile) rs (w : World) r w' :
  convert_files t files rs w = (r, w') →
  ∃ evs, events w' = events w ++ evs ∧ Forall (batch_event t files) evs.
Proof.
  revert rs w. induction files as [|f files IH]; intros rs w.
  { intros [= <- <-]. exists []. by rewrite (right_id_L [] (++)). }
  simpl. unfold mbind, M_bind.
  destruct (convert_file t f rs w) as [r1 w1] eqn:Hf.
  apply convert_file_spec in Hf as (_ & (evs1 & Hev1 & Hall1) & _).
  assert (Forall (batch_event t (f :: files)) evs1) as Hb1.
  { eapply Forall_impl; [exact Hall1|]. intros e He.
    exists f, (token_at (drawn w)).
    split_and!; [apply list_elem_of_here|apply token_at_is_token|done]. }
  destruct r1 as [rs1|e1].
  - intros Hrest. destruct (IH _ _ Hrest) as (evs2 & Hev2 & Hall2).
    exists (evs1 ++ evs2). rewrite Hev2, Hev1, (assoc_L (++)). split; [done|].
    apply Forall_app; split; [done|].
    eapply Forall_impl; [exact Hall2|].
    intros e (g & tok & Hg & Htok & He). exists g, tok.
    split_and!; [by apply list_elem_of_further|done..].
  - intros [= <- <-]. by exists evs1.
Qed.

(** A batch that succeeds reports the files in order, each under the token
    drawn for it. *)
Lemma convert_files_resolved (t : Z) (files : list MulterFile) rs (w : World) rs' w' :
  convert_files t files rs w = (Resolved rs', w') →
  drawn w' = (drawn w + 16 * length files)%nat ∧
  rs' = rs ++ imap (λ j f, conversion_result t f (token_at (drawn w + 16 * j))) files.
Proof.
  revert rs w. induction files as [|f files IH]; intros rs w.
  { intros [= <- <-]. cbn [length imap]. split; [lia|]. by rewrite (right_id_L [] (++)). }
  cbn [convert_files]. unfold mbind, M_bind.
  destruct (convert_file t f rs w) as [[rs1|e1] w1] eqn:Hf; [|done].
  apply convert_file_spec in Hf as (Hd & _ & _ & -> & _).
  intros Hrest. destruct (IH _ _ Hrest) as (Hd' & ->).
  split; [rewrite Hd', Hd; cbn [length]; lia|].
  rewrite imap_cons, <- (assoc_L (++)). cbn [app].
  rewrite Nat.mul_0_r, Nat.add_0_r. do 2 f_equal.
  apply imap_ext. intros j g _. unfold compose. rewrite Hd.
  do 2 f_equal. lia.
Qed.

(** *** What one conversion cleans up *)

(** Where no unlink fails, the staged file is gone after its conversion,
    however it ended; the directive is gone when it could be written. *)
Lemma convert_file_cleans_up (t : Z) (f : MulterFile) rs (w : World) r w' :
  unlink_reliable →
  convert_file t f rs w = (r, w') →
  fs w' !! resolve (path f) = None ∧
  (write_error (resolve psFile) (fs w) = None → fs w' !! resolve psFile = None).
Proof.
  intros Hrel Hrun.
  split; [apply convert_file_spec in Hrun as (_ & _ & Hgone & _); by apply Hgone|].
  revert Hrun. rewrite convert_file_run. cbn zeta. rewrite setPdfDPI_run.
  cbn zeta. cbn [fs drawn events]. intros Hrun Hw. rewrite Hw in Hrun.
  assert (∀ w0 labels, fs w0 !! resolve psFile = None →
            fs (catch_log (fs_unlink (path f)) labels w0) !! resolve psFile = None)
    as Hkeep.
  { intros w0 labels H0.
    destruct (unlink_run (path f) labels w0) as (tail & -> & _). cbn [fs].
    by apply unlinked_absent. }
  assert (∀ w0, fs (catch_log (fs_unlink psFile) [] w0) !! resolve psFile = None)
    as Hgone.
  { intros w0. destruct (unlink_run psFile [] w0) as (tail & -> & _).
    by apply unlinked_gone. }
  destruct (exec_error _) as [e|]; injection Hrun as _ <-; apply Hkeep.
  - unfold console_error, log. cbn [fs]. apply Hgone.
  - apply Hgone.
Qed.

(** *** Counting engine runs *)

Lemma engine_runs_app (a b : list Event) :
  engine_runs (a ++ b) = (engine_runs a + engine_runs b)%nat.
Proof. unfold engine_runs. by rewrite filter_app, length_app. Qed.

Lemma engine_runs_console (evs : list Event) :
  Forall (λ e, ∃ args, e = ConsoleError args) evs → engine_runs evs = 0%nat.
Proof. induction 1 as [|e evs [args ->] _ IH]; [done|exact IH]. Qed.

Lemma engine_runs_none (evs : list Event) :
  Forall (λ e, is_exec e = false) evs → engine_runs evs = 0%nat.
Proof.
  induction 1 as [|e evs He _ IH]; [done|].
  unfold engine_runs in *. rewrite filter_cons_False; [done|]. by rewrite He.
Qed.

Lemma unlink_runs (p : string) (labels : list string) (w : World) :
  engine_runs (events (catch_log (fs_unlink p) labels w)) = engine_runs (events w).
Proof.
  destruct (unlink_run p labels w) as (tail & -> & Htail). cbn [events].
  rewrite engine_runs_app.
  change (engine_runs (Unlink p :: tail)) with (engine_runs tail).
  rewrite (engine_runs_console tail) by done. lia.
Qed.

Lemma engine_runs_snoc (evs : list Event) (e : Event) :
  engine_runs (evs ++ [e]) = (engine_runs evs + if is_exec e then 1 else 0)%nat.
Proof. rewrite engine_runs_app. by destruct e. Qed.

Lemma convert_file_runs (t : Z) (f : MulterFile) rs (w : World) r w' :
  convert_file t f rs w = (r, w') →
  (engine_runs (events w') ≤ engine_runs (events w) + 1)%nat.
Proof.
  rewrite convert_file_run. cbn zeta. rewrite setPdfDPI_run.
  cbn zeta. cbn [fs drawn events].
  destruct (write_error _ _) as [e|].
  { intros [= <- <-]. rewrite unlink_runs. unfold console_error, log.
    cbn [events]. rewrite !engine_runs_snoc. cbn [is_exec]. lia. }
  destruct (exec_error _) as [e|]; intros [= <- <-]; rewrite !unlink_runs;
    unfold console_error, log; cbn [events]; rewrite ?engine_runs_snoc,
    ?unlink_runs; cbn [events is_exec]; rewrite ?engine_runs_snoc;
    cbn [is_exec]; lia.
Qed.

Lemma convert_files_runs (t : Z) (files : list MulterFile) rs (w : World) r w' :
  convert_files t files rs w = (r, w') →
  (engine_runs (events w') ≤ engine_runs (events w) + length files)%nat.
Proof.
  revert rs w. induction files as [|f files IH]; intros rs w.
  { intros [= <- <-]. cbn [length]. lia. }
  cbn [convert_files]. unfold mbind, M_bind.
  destruct (convert_file t f rs w) as [[rs1|e1] w1] eqn:Hf;
    apply convert_file_runs in Hf.
  - intros Hrest%IH. cbn [length]. lia.
  - intros [= <- <-]. cbn [length]. lia.
Qed.

(** *** Output paths of different tokens differ *)

Lemma app_inj_length (a b x y : string) :
  String.length a = String.length b → a +:+ x = b +:+ y → a = b.
Proof.
  revert b. induction a as [|c a IH]; intros [|d b] Hlen Heq; try done.
  rewrite !str_app_cons in Heq. injection Heq as -> Heq.
  f_equal. apply IH; [by injection Hlen|done].
Qed.

Lemma output_path_token_inj (a b : string) :
  is_token a → is_token b →
  output_path (a +:+ ".pdf") = output_path (b +:+ ".pdf") → a = b.
Proof.
  intros [Ha _] [Hb _] Heq. unfold output_path, path_join in Heq.
  apply resolve_inj in Heq.
  apply (inj (String.app "output")), (inj (String.app "/")) in Heq.
  eapply app_inj_length; [|exact Heq]. congruence.
Qed.

(** *** Downloads *)

Lemma output_path_split (fname : string) :
  output_path fname = (cwd +:+ "/" +:+ "output") +:+ "/" +:+ fname.
Proof. unfold output_path, resolve, path_join. by rewrite !str_app_assoc. Qed.

Lemma token_name_plain (tok : string) :
  is_token tok →
  Path.is_plain (tok +:+ ".pdf") = true ∧
  Str.starts_with "." (tok +:+ ".pdf") = false.
Proof.
  intros [Hlen Hhex]. split.
  - unfold Path.is_plain. apply andb_true_iff. split.
    + rewrite str_all_app. apply andb_true_iff. split; [|done].
      eapply all_impl; [|exact Hhex].
      intros c Hc. destruct c as [[] [] [] [] [] [] [] []]; done.
    + apply bool_decide_eq_true.
      split_and!; intros Heq; apply (f_equal String.length) in Heq;
        rewrite str_length_app, Hlen in Heq; done.
  - destruct tok as [|c tok]; [done|]. rewrite str_app_cons.
    cbn [Str.all] in Hhex. apply andb_true_iff in Hhex as [Hc _].
    cbn [Str.starts_with]. destruct (decide ("."%char = c)) as [<-|_]; done.
Qed.

(** With the server started in the directory of [server.js], a file at
    the output path of a plain name that does not start with a dot is
    sent. *)
Lemma get_output_served (fname body : string) (w : World) :
  cwd = dirname →
  Path.is_plain fname = true →
  Str.starts_with "." fname = false →
  fs w !! output_path fname = Some body →
  get_output fname w = (Download200 body, w).
Proof.
  intros Hdir Hplain Hvis Hbody. unfold get_output.
  rewrite join_output_plain, under_output_plain by done.
  replace (dirname +:+ "/" +:+ "output" +:+ "/" +:+ fname) with (output_path fname)
    by (unfold output_path, resolve, path_join; by rewrite Hdir).
  rewrite output_path_split in *.
  destruct (access_file _ _ _ _ Hplain Hbody) as [-> ->]. by rewrite Hvis.
Qed.

(** *** A converted file had its engine run *)

Lemma convert_file_resolved_exec (t : Z) (f : MulterFile) rs (w : World) rs' w' :
  convert_file t f rs w = (Resolved rs', w') →
  ∃ evs, events w' = events w ++ evs ∧
         Exec (command psFile (path f)
                 (path_join "output" (token_at (drawn w) +:+ ".pdf")) t) ∈ evs.
Proof.
  rewrite convert_file_run. cbn zeta. rewrite setPdfDPI_run.
  cbn zeta. cbn [fs drawn events].
  destruct (write_error _ _) as [e|]; [done|].
  destruct (exec_error _) as [e|]; [done|].
  intros [= _ <-].
  match goal with
  | |- context [catch_log (fs_unlink psFile) [] ?W] =>
      destruct (unlink_run psFile [] W) as (tail1 & -> & _)
  end.
  match goal with
  | |- context [catch_log (fs_unlink (path f)) ?l ?W] =>
      destruct (unlink_run (path f) l W) as (tail2 & -> & _)
  end.
  cbn [events]. eexists. rewrite <- !(assoc_L (++)). split; [reflexivity|].
  apply list_elem_of_further, list_elem_of_here.
Qed.

Lemma convert_files_resolved_exec (t : Z) (files : list MulterFile) rs (w : World)
    rs' w' (j : nat) (f : MulterFile) :
  convert_files t files rs w = (Resolved rs', w') →
  files !! j = Some f →
  ∃ evs, events w' = events w ++ evs ∧
         Exec (command psFile (path f)
                 (path_join "output" (token_at (drawn w + 16 * j) +:+ ".pdf")) t)
           ∈ evs.
Proof.
  revert rs w j. induction files as [|g files IH]; intros rs w j; [done|].
  cbn [convert_files]. unfold mbind, M_bind.
  destruct (convert_file t g rs w) as [[rs1|e1] w1] eqn:Hg; [|done].
  intros Hrest Hj. destruct j as [|j].
  - injection Hj as ->. rewrite Nat.mul_0_r, Nat.add_0_r.
    apply convert_file_resolved_exec in Hg as (evs1 & Hev1 & Hin).
    destruct (convert_files_events _ _ _ _ _ _ Hrest) as (evs & -> & _).
    exists (evs1 ++ evs). rewrite Hev1, (assoc_L (++)). split; [done|].
    apply elem_of_app. by left.
  - cbn in Hj. destruct (IH _ _ _ Hrest Hj) as (evs & Hev & Hin).
    apply convert_file_spec in Hg as (Hd & (evs1 & Hev1 & _) & _).
    exists (evs1 ++ evs). rewrite Hev, Hev1, (assoc_L (++)). split; [done|].
    rewrite Hd in Hin.
    replace (drawn w + 16 * S j)%nat with (drawn w + 16 + 16 * j)%nat by lia.
    apply elem_of_app. by right.
Qed.

Lemma convert_file_resolved_runs (t : Z) (f : MulterFile) rs (w : World) rs' w' :
  convert_file t f rs w = (Resolved rs', w') →
  engine_runs (events w') = (engine_runs (events w) + 1)%nat.
Proof.
  rewrite convert_file_run. cbn zeta. rewrite setPdfDPI_run.
  cbn zeta. cbn [fs drawn events].
  destruct (write_error _ _) as [e|]; [done|].
  destruct (exec_error _) as [e|]; [done|].
  intros [= _ <-]. rewrite !unlink_runs. cbn [events].
  rewrite !engine_runs_snoc. cbn [is_exec]. lia.
Qed.

Lemma convert_files_resolved_runs (t : Z) (files : list MulterFile) rs (w : World)
    rs' w' :
  convert_files t files rs w = (Resolved rs', w') →
  engine_runs (events w') = (engine_runs (events w) + length files)%nat.
Proof.
  revert rs w. induction files as [|f files IH]; intros rs w.
  { intros [= <- <-]. cbn [length]. lia. }
  cbn [convert_files]. unfold mbind, M_bind.
  destruct (convert_file t f rs w) as [[rs1|e1] w1] eqn:Hf; [|done].
  apply convert_file_resolved_runs in Hf.
  intros Hrest%IH. cbn [length]. lia.
Qed.

Lemma convert_file_rejected_message (t : Z) (f : MulterFile) rs (w : World) e w' :
  convert_file t f rs w = (Rejected e, w') →
  (∃ e0, write_error (resolve psFile) (fs w) = Some e0 ∧
         e = "Failed to create PostScript file: " +:+ e0 ∧
         engine_runs (events w') = engine_runs (events w)) ∨
  (∃ e0, write_error (resolve psFile) (fs w) = None ∧
         e = "Failed to set PDF DPI: " +:+ e0 ∧
         engine_runs (events w') = (engine_runs (events w) + 1)%nat).
Proof.
  rewrite convert_file_run. cbn zeta. rewrite setPdfDPI_run.
  cbn zeta. cbn [fs drawn events].
  destruct (write_error _ _) as [e0|].
  { intros [= <- <-]. left. exists e0. split_and!; [done..|].
    rewrite unlink_runs. unfold console_error, log. cbn [events].
    rewrite !engine_runs_snoc. cbn [is_exec]. lia. }
  destruct (exec_error _) as [e0|]; [|done].
  intros [= <- <-]. right. exists e0. split_and!; [done..|].
  rewrite unlink_runs. unfold console_error, log. cbn [events].
  rewrite !engine_runs_snoc. cbn [is_exec]. rewrite unlink_runs. cbn [events].
  rewrite !engine_runs_snoc. cbn [is_exec]. lia.
Qed.

(** *** The route *)

Lemma convert_run (files : list MulterFile) (dpi_field : option string) (w : World) :
  convert files dpi_field w =
    if decide (files = []) then (Json400 "No files uploaded", w)
    else
      let t := targetDPI_of dpi_field in
      if decide (t < 72 ∨ t > 2400)
      then (Json400 "DPI must be between 72 and 2400", w)
      else
        match convert_files t files [] w with
        | (Resolved rs, w') => (Json200 "Files processed successfully" rs, w')
        | (Rejected e, w') =>
            (Json500 "Internal Server Error" e,
             console_error ["Unexpected server error:"; e] w')
        end.
Proof.
  unfold convert, convert_body. destruct (decide (files = [])); [done|].
  cbn zeta. destruct (decide (_ ∨ _)); [done|].
  unfold mbind, M_bind, mret, M_ret.
  by destruct (convert_files _ _ _ _) as [[rs|e] w'].
Qed.

(** Whatever the route does, it does as a batch at its target resolution
    (plus the final log line of a failure). *)
Lemma convert_events (files : list MulterFile) (dpi_field : option string)
    (w : World) resp w' :
  convert files dpi_field w = (resp, w') →
  ∃ evs, events w' = events w ++ evs ∧
         Forall (batch_event (targetDPI_of dpi_field) files) evs ∧
         (evs ≠ [] → 72 ≤ targetDPI_of dpi_field ≤ 2400).
Proof.
  rewrite convert_run.
  destruct (decide (files = [])) as [->|Hne].
  { intros [= <- <-]. exists []. by rewrite (right_id_L [] (++)). }
  cbn zeta. destruct (decide (_ ∨ _)) as [Hbad|Hok].
  { intros [= <- <-]. exists []. by rewrite (right_id_L [] (++)). }
  destruct (convert_files _ _ _ _) as [r w1] eqn:Hrun.
  destruct (convert_files_events _ _ _ _ _ _ Hrun) as (evs & Hev & Hall).
  destruct r as [rs|e]; intros [= <- <-].
  - exists evs. split_and!; [done..|lia].
  - exists (evs ++ [ConsoleError ["Unexpected server error:"; e]]).
    unfold console_error, log. cbn [events]. rewrite Hev, (assoc_L (++)).
    split_and!; [done| |lia].
    apply Forall_app; split; [done|]. apply Forall_singleton.
    destruct files as [|f files]; [done|].
    exists f, (token_at 0). split_and!;
      [apply list_elem_of_here|apply token_at_is_token|done].
Qed.

(** X3. A request with files whose dpi field is the decimal numeral of a
    non-zero integer below 72 or above 2400 is answered with 400 and the
    message "DPI must be between 72 and 2400", and nothing is done. *)
Lemma out_of_range_rejected (files : list MulterFile) (z : Z) (w : World) :
  files ≠ [] → z ≠ 0 → z < 72 ∨ z > 2400 →
  convert files (Some (number_to_string z)) w =
    (Json400 "DPI must be between 72 and 2400", w).
Proof.
  intros Hne Hz Hrange. rewrite convert_run.
  destruct (decide (files = [])); [done|]. cbn zeta.
  unfold targetDPI_of. cbn [to_js_string].
  rewrite parseInt_number_to_string. cbn [or_default].
  destruct (decide (z = 0)); [done|].
  by destruct (decide (_ ∨ _)).
Qed.

(** *** Upload intake *)

Lemma remove_uploaded_spec (files : list MulterFile) (w : World) :
  Forall staged files →
  drawn (remove_uploaded files w) = drawn w ∧
  events (remove_uploaded files w) = events w ++ (Removed ∘ path <$> files) ∧
  ∀ q, is_output q → fs (remove_uploaded files w) !! q = fs w !! q.
Proof.
  revert w. induction files as [|f files IH]; intros w Hst.
  { cbn. by rewrite (right_id_L [] (++)). }
  apply Forall_cons in Hst as [Hf Hst].
  cbn [remove_uploaded]. destruct (IH (mkWorld (delete (resolve (path f)) (fs w))
    (drawn w) (events w ++ [Removed (path f)])) Hst) as (Hd & Hev & Hfs).
  cbn [fs drawn events] in *. split_and!; [done| |].
  - rewrite Hev, <- (assoc_L (++)). done.
  - intros q Hq. rewrite Hfs by done.
    apply lookup_delete_ne. intros Heq. by eapply staged_not_output.
Qed.

Lemma store_spec (index : nat) (p : Part) (w : World) :
  ∃ f, store index p w =
         (Resolved f,
          mkWorld (<[resolve (path f) := part_data p]> (fs w)) (drawn w + 16)
                  (events w ++ [Staged index (path f)])) ∧
       staged f ∧ originalname f = part_filename p ∧ mimetype f = part_type p.
Proof.
  eexists (mkFile _ _ _ _). unfold store, storage_filename, randomBytes,
    mbind, M_bind, mret, M_ret. cbn [fs drawn events path].
  split; [reflexivity|]. done.
Qed.

(** What the middleware does with the parts of a request: it stores PDF
    parts only, changes nothing in the output directory, and fails as
    soon as a part is not a PDF. *)
Lemma upload_array_spec (parts : list Part) (index : nat)
    (stored : list MulterFile) (w : World) r w' :
  Forall staged stored →
  upload_array parts index stored w = (r, w') →
  (∃ evs, events w' = events w ++ evs ∧
          Forall (λ e, (∃ i p, e = Staged (index + i) (p : string) ∧
                               ∃ part, parts !! i = Some part ∧
                                       part_type part = "application/pdf") ∨
                       ∃ p, e = Removed p) evs) ∧
  (∀ q, is_output q → fs w' !! q = fs w !! q) ∧
  ((∃ part, part ∈ parts ∧ part_type part ≠ "application/pdf") →
   ∃ e, r = Rejected e) ∧
  (∀ files, r = Resolved files → Forall staged files).
Proof.
  revert index stored w. induction parts as [|part parts IH];
    intros index stored w Hst.
  { intros [= <- <-]. split_and!.
    - exists []. by rewrite (right_id_L [] (++)).
    - done.
    - intros (part & []%elem_of_nil & _).
    - by intros files [= <-]. }
  cbn [upload_array]. unfold fileFilter.
  destruct (decide (part_type part ≠ "application/pdf")) as [Hbad|Hpdf].
  { intros [= <- <-].
    destruct (remove_uploaded_spec stored w Hst) as (_ & Hev & Hfs).
    split_and!; [|done|by eauto|done].
    eexists. split; [exact Hev|].
    apply Forall_fmap, Forall_true. intros f. right. by eexists. }
  apply dec_stable in Hpdf.
  unfold mbind at 1. unfold M_bind.
  destruct (store_spec index part w) as (f & -> & Hf & _).
  set (w1 := mkWorld _ _ _).
  assert (Forall staged (stored ++ [f])) as Hst'.
  { apply Forall_app; split; [done|]. by apply Forall_singleton. }
  assert (∀ q, is_output q → fs w1 !! q = fs w !! q) as Hfs1.
  { intros q Hq. apply lookup_insert_ne. intros Heq. by eapply staged_not_output. }
  assert ((∃ i p, Staged index (path f) = Staged (index + i) (p : string) ∧
                  ∃ part0, (part :: parts) !! i = Some part0 ∧
                           part_type part0 = "application/pdf") ∨
          ∃ p, Staged index (path f) = Removed p) as Hstaged.
  { left. exists O, (path f). rewrite Nat.add_0_r. split; [done|]. by exists part. }
  destruct (decide (fileSize_limit < _)%N).
  { intros [= <- <-].
    destruct (remove_uploaded_spec (stored ++ [f]) w1 Hst') as (_ & Hev & Hfs).
    split_and!; [| |by eauto|done].
    - eexists. rewrite Hev. subst w1. cbn [events].
      rewrite <- (assoc_L (++)). split; [done|].
      apply Forall_cons; split; [done|].
      apply Forall_fmap, Forall_true. intros g. right. by eexists.
    - intros q Hq. rewrite Hfs by done. by apply Hfs1. }
  intros Hrest.
  destruct (IH _ _ _ Hst' Hrest) as ((evs & Hev & Hall) & Hfs & Hrej & Hres).
  split_and!.
  - eexists. rewrite Hev. subst w1. cbn [events].
    rewrite <- (assoc_L (++)). split; [done|].
    apply Forall_cons; split; [done|].
    eapply Forall_impl; [exact Hall|].
    intros e [(i & p & -> & part0 & Hi & Ht)|[p ->]]; [left|right; by eexists].
    exists (S i), p. split; [f_equal; lia|]. by exists part0.
  - intros q Hq. rewrite Hfs by done. by apply Hfs1.
  - intros (part0 & Hin & Hbad). apply Hrej.
    apply elem_of_cons in Hin as [->|Hin]; [done|]. by exists part0.
  - done.
Qed.

End Facts.

(** ** The sample engine *)

Lemma chars_app (a b : string) : Sample.chars (a +:+ b) = Sample.chars a ++ Sample.chars b.
Proof.
  induction a as [|c a IH]; [done|].
  rewrite str_app_cons. unfold Sample.chars in *. simpl. by rewrite IH.
Qed.

Lemma text_chars (s : string) : Sample.text (Sample.chars s) = s.
Proof. apply string_of_list_ascii_of_string. Qed.

Lemma chars_all (P : ascii → bool) (s : string) :
  Str.all P s = true → Forall (λ c, P c = true) (Sample.chars s).
Proof.
  induction s as [|c s IH]; [constructor|].
  simpl. intros [Hc Hs]%andb_true_iff. constructor; auto.
Qed.

Lemma until_quote_app (l rest : list ascii) (q : ascii) :
  Forall (λ c, negb (Sample.is_quote c) = true) l →
  Sample.is_quote q = true →
  Sample.until_quote (l ++ q :: rest) = (l, rest).
Proof.
  intros Hl Hq. induction Hl as [|c l Hc _ IH]; simpl.
  - by rewrite Hq.
  - apply negb_true_iff in Hc. by rewrite Hc, IH.
Qed.

(** The sample engine reads its output path as the server wrote it,
    provided the path holds no quote. *)
Lemma parse_command_output (ps inp out : string) (t : Z) :
  Str.all (λ c, negb (Sample.is_quote c)) out = true →
  match Sample.parse_command (command ps inp out t) with
  | Some (_, o) => o = out
  | None => True
  end.
Proof.
  intros Hout.
  assert (∃ A, command ps inp out t = ((A +:+ quote) +:+ out) +:+ quote) as [A ->].
  { eexists. unfold command. rewrite <- !str_app_assoc. reflexivity. }
  unfold Sample.parse_command.
  rewrite !chars_app, !reverse_app.
  change (reverse (Sample.chars quote)) with ["034"%char].
  cbn [app]. change (Sample.is_quote "034") with true. cbn match.
  rewrite until_quote_app; [|by apply Forall_reverse, chars_all|done].
  destruct (Sample.strip_chars _ _) as [[|q' l]|]; [done| |done].
  destruct (Sample.is_quote q'); [|done].
  destruct (Sample.until_quote l) as [i _].
  by rewrite reverse_involutive, text_chars.
Qed.

Lemma token_has_no_quote (tok : string) :
  is_token tok →
  Str.all (λ c, negb (Sample.is_quote c)) (path_join "output" (tok +:+ ".pdf")) = true.
Proof.
  intros [_ Hhex]. unfold path_join. rewrite !str_all_app.
  assert (Str.all (λ c, negb (Sample.is_quote c)) tok = true) as ->.
  { eapply all_impl; [|exact Hhex].
    intros c Hc. destruct c as [[] [] [] [] [] [] [] []]; done. }
  done.
Qed.

Lemma sample_engine_frame : engine_frame (H := Sample.env).
Proof.
  intros ps inp tok t m p Htok Hp.
  pose proof (parse_command_output ps inp _ t (token_has_no_quote tok Htok)) as Hparse.
  change (gs (Env := Sample.env)) with (Sample.engine Sample.home).
  unfold Sample.engine.
  destruct (Sample.parse_command _) as [[i o]|]; [|done].
  subst o. destruct (m !! _) as [data|]; [|done].
  destruct (Str.starts_with _ _); [|done].
  cbn [exec_fs]. by apply lookup_insert_ne.
Qed.

(** * The stated properties *)

(** C1 is broken by the code: the staged file is removed only in the loop
    that converts it.  A request refused for its resolution leaves all its
    staged files in the uploads directory, and a batch that fails leaves
    the staged files that come after the failing one. *)
Theorem staged_files_left_behind :
  let refused := post_convert (H := Sample.env)
                   [Sample.pdf "a.pdf" "%PDF-AAA"; Sample.pdf "c.pdf" "%PDF-C"]
                   (Some "50") Sample.world in
  let failed := post_convert (H := Sample.env)
                  [Sample.pdf "b.pdf" "oops"; Sample.pdf "c.pdf" "%PDF-C"]
                  (Some "300") Sample.world in
  (status refused.1 = 400 ∧
   left_on_disk (H := Sample.env) refused.2 =
     ["uploads/030a11181f262d343b424950575e656c.pdf";
      "uploads/737a81888f969da4abb2b9c0c7ced5dc.pdf"]) ∧
  (status failed.1 = 500 ∧
   left_on_disk (H := Sample.env) failed.2 =
     ["uploads/737a81888f969da4abb2b9c0c7ced5dc.pdf"]).
Proof. by vm_compute. Qed.

(** C2. When the conversion of file k of a batch fails after files 1..k-1
    were converted, the response is the single 500 error body and carries
    no entry; the request runs exactly as if the files after k were not in
    it, with at most k engine runs; and, with an engine that writes nothing
    but the output it is given and a token for file k that was not drawn
    before, the outputs of files 1..k-1 are on disk as they were when file
    k started. *)
Theorem failed_batch `{Env} (pre post : list MulterFile) (f : MulterFile)
    (dpi_field : option string) (w : World) rs w1 e w2 :
  let t := targetDPI_of dpi_field in
  72 ≤ t ≤ 2400 →
  convert_files t pre [] w = (Resolved rs, w1) →
  convert_file t f rs w1 = (Rejected e, w2) →
  let run := convert (pre ++ f :: post) dpi_field w in
  run.1 = Json500 "Internal Server Error" e ∧
  status run.1 = 500 ∧
  response_files run.1 = [] ∧
  run = convert (pre ++ [f]) dpi_field w ∧
  (engine_runs (events run.2) ≤ engine_runs (events w) + length pre + 1)%nat ∧
  (engine_frame → staged f →
   (∀ j, (j < length pre)%nat →
         token_at (drawn w + 16 * j) ≠ token_at (drawn w + 16 * length pre)) →
   ∀ r, r ∈ rs → fs run.2 !! output_path (name r) = fs w1 !! output_path (name r)).
Proof.
  intros t Hrange Hpre Hfail run.
  assert (∀ rest, convert (pre ++ f :: rest) dpi_field w =
                  (Json500 "Internal Server Error" e,
                   console_error ["Unexpected server error:"; e] w2)) as Hrun.
  { intros rest. rewrite convert_run.
    destruct (decide (pre ++ f :: rest = [])) as [Heq|_]; [by destruct pre|].
    cbn zeta. fold t. destruct (decide (t < 72 ∨ t > 2400)); [lia|].
    rewrite convert_files_app, Hpre. cbn [convert_files].
    unfold mbind, M_bind. by rewrite Hfail. }
  subst run. rewrite (Hrun post). cbn [fst snd status response_files].
  split_and!; [done..|by rewrite (Hrun [])| |].
  - unfold console_error, log. cbn [events]. rewrite engine_runs_snoc.
    cbn [is_exec].
    apply convert_files_runs in Hpre. apply convert_file_runs in Hfail. lia.
  - intros Hframe Hf Hfresh r Hr.
    unfold console_error, log. cbn [fs].
    apply convert_files_resolved in Hpre as [Hd ->]. cbn [app] in Hr.
    apply list_elem_of_lookup in Hr as [j Hj].
    rewrite list_lookup_imap in Hj.
    destruct (pre !! j) as [g|] eqn:Hg; [|done]. cbn in Hj. injection Hj as <-.
    apply lookup_lt_Some in Hg.
    apply convert_file_spec in Hfail as (_ & _ & _ & _ & Hfs).
    cbn [name conversion_result].
    apply Hfs; [done|apply psFile_not_output; by eexists| |].
    + apply staged_not_output; [done|by eexists].
    + rewrite Hd. intros Heq.
      apply output_path_token_inj in Heq; [|apply token_at_is_token..].
      by apply (Hfresh j).
Qed.

Lemma failed_batch_witness :
  let entry_a := mkResult "a.pdf" "030a11181f262d343b424950575e656c.pdf"
                   "/output/030a11181f262d343b424950575e656c.pdf" 300 in
  let before :=
    (convert_files (H := Sample.env) (targetDPI_of (Some "300")) [Sample.good] []
       Sample.stored).2 in
  let run := convert (H := Sample.env) ([Sample.good] ++ Sample.bad :: [Sample.late])
               (Some "300") Sample.stored in
  status run.1 = 500 ∧
  response_files run.1 = [] ∧
  run = convert (H := Sample.env) ([Sample.good] ++ [Sample.bad]) (Some "300")
          Sample.stored ∧
  fs run.2 !! output_path (H := Sample.env) (name entry_a)
  = fs before !! output_path (H := Sample.env) (name entry_a).
Proof.
  intros entry_a before run.
  assert (72 ≤ targetDPI_of (Some "300") ≤ 2400) as Hrange.
  { change (targetDPI_of (Some "300")) with 300. lia. }
  assert (convert_files (H := Sample.env) (targetDPI_of (Some "300")) [Sample.good] []
            Sample.stored = (Resolved [entry_a], before)) as Hpre.
  { vm_compute. reflexivity. }
  assert (∃ e w2, convert_file (H := Sample.env) (targetDPI_of (Some "300")) Sample.bad
                    [entry_a] before = (Rejected e, w2)) as (e & w2 & Hfail).
  { do 2 eexists. vm_compute. reflexivity. }
  destruct (failed_batch (H := Sample.env) [Sample.good] [Sample.late] Sample.bad
              (Some "300") Sample.stored [entry_a] before e w2 Hrange Hpre Hfail)
    as (_ & Hst & Hnone & Htrunc & _ & Hkeep).
  split_and!; [exact Hst|exact Hnone|exact Htrunc|].
  apply (Hkeep sample_engine_frame eq_refl).
  - intros j Hj. assert (j = O) as -> by (cbn in Hj; lia). by vm_compute.
  - apply list_elem_of_here.
Defined.

(** C3 is broken by the code at the field "0": it is the numeral of an
    integer below 72, yet the request is answered with 200 after an engine
    run at 300, because a zero counts as a missing value in
    [parseInt(req.body.dpi) || 300]. *)
Theorem zero_dpi_is_converted :
  let run := post_convert (H := Sample.env) [Sample.pdf "a.pdf" "%PDF-AAA"]
               (Some "0") Sample.world in
  read_decimal "0" = Some 0 ∧
  status run.1 = 200 ∧
  dpi <$> response_files run.1 = [300] ∧
  engine_runs (events run.2) = 1%nat.
Proof. by vm_compute. Qed.

(** C4 as stated fails: the field "150dpi" is not a number, yet the
    resolution used and reported is 150, not 300. *)
Lemma non_numeric_dpi_counterexample :
  is_integer_text "150dpi" = false ∧
  targetDPI_of (Some "150dpi") = 150 ∧
  dpi <$> response_files
            (convert (H := Sample.env) [Sample.good] (Some "150dpi") Sample.stored).1
  = [150].
Proof. by vm_compute. Qed.

(** C4, amended. When the dpi field is missing, or its value does not begin
    (after white space and an optional sign) with a decimal digit, the
    target resolution is exactly 300: every engine run of the request is at
    300 and every entry of the response reports 300. *)
Theorem unreadable_dpi_defaults_to_300 `{Env} (dpi_field : option string) :
  has_leading_digit (to_js_string dpi_field) = false →
  targetDPI_of dpi_field = 300 ∧
  ∀ files w,
    (∀ r, r ∈ response_files (convert files dpi_field w).1 → dpi r = 300) ∧
    ∃ evs, events (convert files dpi_field w).2 = events w ++ evs ∧
           Forall (batch_event 300 files) evs.
Proof.
  intros Hno.
  assert (targetDPI_of dpi_field = 300) as Ht.
  { unfold targetDPI_of. by rewrite parseInt_no_leading_digit. }
  split; [done|]. intros files w.
  destruct (convert files dpi_field w) as [resp w'] eqn:Hrun. cbn [fst snd].
  split.
  - rewrite convert_run, Ht in Hrun.
    destruct (decide (files = [])); [by simplify_eq; intros r ?%elem_of_nil|].
    cbn zeta in Hrun. destruct (decide (_ ∨ _)); [lia|].
    destruct (convert_files _ _ _ _) as [[rs|e] w1] eqn:Hfiles; simplify_eq;
      [|by intros r ?%elem_of_nil].
    apply convert_files_resolved in Hfiles as [_ ->]. cbn [app response_files].
    intros r [i Hi]%list_elem_of_lookup. rewrite list_lookup_imap in Hi.
    destruct (files !! i); [|done]. cbn in Hi. by injection Hi as <-.
  - apply convert_events in Hrun as (evs & Hev & Hall & _).
    rewrite Ht in Hall. by exists evs.
Qed.

Lemma unreadable_dpi_defaults_to_300_witness :
  has_leading_digit "high" = false ∧ targetDPI_of (Some "high") = 300.
Proof.
  split; [reflexivity|].
  exact (proj1 (unreadable_dpi_defaults_to_300 (H := Sample.env) (Some "high") eq_refl)).
Defined.

(** C5. For every valid target resolution, from 72 to 2400: the command
    line built for an engine run sets the horizontal and the vertical
    device resolution to exactly that number; a call of [setPdfDPI] whose
    directive could be written starts the engine exactly once, with that
    command line for its input and output; and a /convert request with
    files at that resolution is not refused, starts the engine with such
    command lines only, starts it at least once when the directive can be
    written, and, when it answers 200, has started it once for every file
    of the batch, with the command line built for that file. *)
Theorem engine_resolution_is_target `{Env} (t : Z) :
  72 ≤ t ≤ 2400 →
  (∀ ps inp out,
     device_resolution "X" (command ps inp out t) = Some t ∧
     device_resolution "Y" (command ps inp out t) = Some t) ∧
  (∀ inp out w,
     write_error (resolve psFile) (fs w) = None →
     ∃ before after,
       events (setPdfDPI inp out t w).2 =
         events w ++ before ++ Exec (command psFile inp out t) :: after ∧
       engine_runs before = 0%nat ∧ engine_runs after = 0%nat) ∧
  (∀ files dpi_field w,
     files ≠ [] →
     targetDPI_of dpi_field = t →
     let run := convert files dpi_field w in
     status run.1 ≠ 400 ∧
     ∃ evs,
       events run.2 = events w ++ evs ∧
       (∀ cmd, Exec cmd ∈ evs →
               device_resolution "X" cmd = Some t ∧
               device_resolution "Y" cmd = Some t) ∧
       (write_error (resolve psFile) (fs w) = None → (1 ≤ engine_runs evs)%nat) ∧
       (status run.1 = 200 →
        engine_runs evs = length files ∧
        ∀ j f, files !! j = Some f →
               Exec (command psFile (path f)
                       (path_join "output" (token_at (drawn w + 16 * j) +:+ ".pdf")) t)
                 ∈ evs)).
Proof.
  intros Hrange. split_and!; [intros; apply command_resolution| |].
  - intros inp out w Hw. rewrite setPdfDPI_run. cbn zeta. rewrite Hw.
    match goal with
    | |- context [catch_log (fs_unlink psFile) [] ?W] =>
        destruct (unlink_run psFile [] W) as (tail & -> & Htail)
    end.
    exists [WriteFile psFile (psContent t)].
    destruct (exec_error _) as [e|]; unfold console_error, log;
      cbn [snd events]; eexists; rewrite <- !(assoc_L (++));
      (split; [reflexivity|split; [reflexivity|]]).
    + apply engine_runs_none. constructor; [done|].
      apply Forall_app. split; [|by apply Forall_singleton].
      eapply Forall_impl; [exact Htail|]. by intros ev [args ->].
    + apply engine_runs_none. constructor; [done|].
      eapply Forall_impl; [exact Htail|]. by intros ev [args ->].
  - intros files dpi_field w Hne Ht. cbn zeta.
    destruct (convert files dpi_field w) as [resp w'] eqn:Hrun. cbn [fst snd].
    pose proof (convert_events _ _ _ _ _ Hrun) as (evs & Hev & Hall & _).
    rewrite Ht in Hall. rewrite Forall_forall in Hall.
    revert Hrun. rewrite convert_run.
    destruct (decide (files = [])); [done|]. cbn zeta. rewrite Ht.
    destruct (decide (t < 72 ∨ t > 2400)); [lia|].
    destruct (convert_files t files [] w) as [[rs|e] w1] eqn:Hfiles;
      intros [= <- <-]; (split; [done|]); exists evs; (split; [done|]);
      (split; [intros cmd Hin; destruct (Hall _ Hin) as (f & tok & _ & _ & ->);
               apply command_resolution|]).
    + pose proof (convert_files_resolved_runs _ _ _ _ _ _ Hfiles) as Hruns.
      rewrite Hev, engine_runs_app in Hruns.
      assert (engine_runs evs = length files) as Hn by lia.
      split; [intros _; rewrite Hn; destruct files; [done|cbn [length]; lia]|].
      intros _. split; [done|]. intros j f Hj.
      destruct (convert_files_resolved_exec _ _ _ _ _ _ _ _ Hfiles Hj)
        as (evs' & Hev' & Hin).
      rewrite Hev in Hev'. by apply (inj (app (events w))) in Hev' as ->.
    + split; [|done]. intros Hw.
      unfold console_error, log in Hev. cbn [events] in Hev.
      apply convert_files_rejected in Hfiles
        as (pre & f & post & rs1 & w0 & -> & Hpre & Hfail).
      pose proof (convert_files_resolved_runs _ _ _ _ _ _ Hpre) as Hruns.
      assert (engine_runs (events w1 ++ [ConsoleError ["Unexpected server error:"; e]])
              = engine_runs (events w1)) as Hlast.
      { rewrite engine_runs_snoc. cbn [is_exec]. lia. }
      rewrite Hev, engine_runs_app in Hlast.
      destruct (convert_file_rejected_message _ _ _ _ _ _ Hfail)
        as [(e0 & Hw0 & _ & Hr)|(e0 & _ & _ & Hr)]; destruct pre as [|g pre];
        cbn [length] in Hruns; try lia.
      injection Hpre as <- <-. congruence.
Qed.

Lemma engine_resolution_is_target_witness :
  let run := convert (H := Sample.env) [Sample.good] (Some "300") Sample.stored in
  let cmd := command "uploads/setdpi.ps" "uploads/aa.pdf"
               "output/030a11181f262d343b424950575e656c.pdf" 300 in
  status run.1 = 200 ∧
  Exec cmd ∈ events run.2 ∧
  device_resolution "X" cmd = Some 300 ∧
  device_resolution "Y" cmd = Some 300.
Proof.
  intros run cmd.
  destruct (engine_resolution_is_target (H := Sample.env) 300 ltac:(lia))
    as (Hcmd & _ & Hreq).
  destruct (Hreq [Sample.good] (Some "300") Sample.stored ltac:(done) eq_refl)
    as (_ & evs & Hev & _ & _ & Hok).
  assert (status run.1 = 200) as Hstatus by (by vm_compute).
  destruct (Hok Hstatus) as [_ Hin].
  split; [exact Hstatus|]. split; [|apply Hcmd].
  subst run. rewrite Hev. apply elem_of_app. right.
  exact (Hin O Sample.good eq_refl).
Defined.

(** C6. The directive is a function of the target resolution alone: an
    attempt writes exactly the text [psContent targetDPI], whatever the
    input, the output and the state of the world, so two attempts at the
    same resolution write the same text.  For every resolution that text
    turns downsampling off for colour, grey and monochrome images, sets
    the three image resolutions to the target, chooses Flate encoding for
    colour and grey and CCITT fax encoding for monochrome images, and
    carries the same fixed document information. *)
Theorem directive_is_function_of_dpi `{Env} (t : Z) :
  let d := psContent t in
  (∀ inp out w,
     ∃ evs, events (setPdfDPI inp out t w).2 = events w ++ evs ∧
            written_texts evs = [d]) ∧
  (entry "/DownsampleColorImages" d = Some "false" ∧
   entry "/DownsampleGrayImages" d = Some "false" ∧
   entry "/DownsampleMonoImages" d = Some "false" ∧
   entry "/ColorImageDownsampleType" d = Some "/None" ∧
   entry "/GrayImageDownsampleType" d = Some "/None" ∧
   entry "/MonoImageDownsampleType" d = Some "/None") ∧
  (entry "/ColorImageResolution" d ≫= read_decimal = Some t ∧
   entry "/GrayImageResolution" d ≫= read_decimal = Some t ∧
   entry "/MonoImageResolution" d ≫= read_decimal = Some t) ∧
  (entry "/ColorImageFilter" d = Some "/FlateEncode" ∧
   entry "/GrayImageFilter" d = Some "/FlateEncode" ∧
   entry "/MonoImageFilter" d = Some "/CCITTFaxEncode") ∧
  (entry "/Title" d = Some "(Set DPI)" ∧
   entry "/Author" d = Some "(PDF Processor)" ∧
   entry "/Creator" d = Some "(PDF DPI Setter)" ∧
   entry "/Producer" d = Some "(Ghostscript)" ∧
   entry "/ModDate" d = Some "(D:20240214)" ∧
   entry "/CreationDate" d = Some "(D:20240214)" ∧
   entry "/Subject" d = Some "(DPI Modified PDF)" ∧
   entry "/Keywords" d = Some "(DPI, PDF)").
Proof.
  cbn zeta.
  destruct (directive_entries t)
    as (Hc & Hg & Hm & Hdc & Hdg & Hdm & Htc & Htg & Htm & Hfc & Hfg & Hfm).
  split; [|split; [|split; [|split]]].
  - intros inp out w.
    destruct (setPdfDPI inp out t w) as [r w'] eqn:Hrun.
    apply setPdfDPI_spec in Hrun as (_ & (evs & Hev & Hall) & _).
    eexists. split; [exact Hev|].
    change (written_texts (WriteFile psFile (psContent t) :: evs))
      with (psContent t :: written_texts evs).
    by erewrite written_texts_after.
  - by repeat split.
  - rewrite Hc, Hg, Hm. cbn [mbind option_bind].
    rewrite read_number_to_string. repeat split; reflexivity.
  - by repeat split.
  - apply directive_metadata.
Qed.

(** C7. Every conversion attempt, whatever its input file, output path and
    target resolution, writes its directive to the one path
    "uploads/setdpi.ps" and to no other; so does every write of a whole
    /convert request. *)
Theorem directive_path_is_fixed `{Env} :
  psFile = "uploads/setdpi.ps" ∧
  (∀ inp out t w,
     ∃ evs, events (setPdfDPI inp out t w).2 =
              events w ++ WriteFile "uploads/setdpi.ps" (psContent t) :: evs ∧
            ∀ p c, WriteFile p c ∉ evs) ∧
  (∀ files dpi_field w,
     ∃ evs, events (convert files dpi_field w).2 = events w ++ evs ∧
            ∀ p c, WriteFile p c ∈ evs → p = "uploads/setdpi.ps").
Proof.
  split_and!; [done| |].
  - intros inp out t w.
    destruct (setPdfDPI inp out t w) as [r w'] eqn:Hrun.
    apply setPdfDPI_spec in Hrun as (_ & (evs & Hev & Hall) & _).
    exists evs. split; [done|]. intros p c Hin.
    rewrite Forall_forall in Hall.
    destruct (Hall _ Hin) as [?|[?|[args ?]]]; done.
  - intros files dpi_field w.
    destruct (convert files dpi_field w) as [resp w'] eqn:Hrun.
    apply convert_events in Hrun as (evs & Hev & Hall & _).
    exists evs. split; [done|]. intros p c Hin.
    rewrite Forall_forall in Hall.
    destruct (Hall _ Hin) as (f & tok & _ & _ & Hp & _). done.
Qed.

(** C8 is broken by the code when the server is started from another
    directory than that of [server.js]: the engine is given the relative
    path "output/<name>" and writes the output under the working
    directory, while the download is looked up under the directory of
    [server.js].  The conversion is answered with 200, the bytes are on
    disk at the output path, and the GET that follows with the name of the
    response is answered with 404 "File not found".  The same two requests
    to a server started in the directory of [server.js] return the
    bytes. *)
Theorem round_trip_needs_same_directory :
  let fname := "030a11181f262d343b424950575e656c.pdf" in
  let run := convert (H := Sample.env_elsewhere)
               [Sample.good]
               (Some "300")
               (mkWorld {["/srv/uploads/aa.pdf" := "%PDF-AAA"]} 0 []) in
  let run_home := convert (H := Sample.env) [Sample.good] (Some "300")
                    (mkWorld {["/srv/app/uploads/aa.pdf" := "%PDF-AAA"]} 0 []) in
  (status run.1 = 200 ∧
   name <$> response_files run.1 = [fname] ∧
   Exec (command "uploads/setdpi.ps" "uploads/aa.pdf" ("output/" +:+ fname) 300)
     ∈ events run.2 ∧
   fs run.2 !! output_path (H := Sample.env_elsewhere) fname
   = Some "%PDF-1.4 prepress %PDF-AAA" ∧
   get_output (H := Sample.env_elsewhere) fname run.2
   = (Json404 "File not found", run.2)) ∧
  (status run_home.1 = 200 ∧
   name <$> response_files run_home.1 = [fname] ∧
   get_output (H := Sample.env) fname run_home.2
   = (Download200 "%PDF-1.4 prepress %PDF-AAA", run_home.2)).
Proof.
  cbn zeta. split; split_and!; try (by vm_compute).
  apply list_elem_of_lookup. exists 1%nat. by vm_compute.
Qed.

(** C9. When a part of the upload declares a content type other than
    "application/pdf", the request fails in the middleware: the route is not
    run, that part is never stored in the uploads directory, no engine run
    takes place and the output directory is left as it was. *)
Theorem non_pdf_upload_is_rejected `{Env} (parts : list Part)
    (dpi_field : option string) (w : World) :
  (∃ part, part ∈ parts ∧ part_type part ≠ "application/pdf") →
  ∃ e evs,
    (post_convert parts dpi_field w).1 = Unhandled500 e ∧
    events (post_convert parts dpi_field w).2 = events w ++ evs ∧
    engine_runs evs = 0%nat ∧
    (∀ i part p, parts !! i = Some part →
                 part_type part ≠ "application/pdf" → Staged i p ∉ evs) ∧
    (∀ q, is_output q → fs (post_convert parts dpi_field w).2 !! q = fs w !! q).
Proof.
  intros Hbad. unfold post_convert.
  destruct (upload_array parts 0 [] w) as [r w'] eqn:Hup.
  apply upload_array_spec in Hup as ((evs & Hev & Hall) & Hfs & Hrej & _); [|done].
  destruct (Hrej Hbad) as [e ->]. exists e, evs. cbn [fst snd].
  split_and!; [done..| | |done].
  - unfold engine_runs. clear Hev.
    induction Hall as [|ev evs Hev _ IH]; [done|].
    destruct Hev as [(i & p & -> & _)|[p ->]]; exact IH.
  - intros i part p Hi Htype Hin. rewrite Forall_forall in Hall.
    destruct (Hall _ Hin) as [(j & p' & Heq & part' & Hj & Hpdf)|[p' Heq]]; [|done].
    injection Heq as -> ->. cbn in Hj. congruence.
Qed.

Lemma non_pdf_upload_is_rejected_witness :
  let parts := [Sample.pdf "a.pdf" "%PDF-AAA"; mkPart "b.png" "image/png" "PNG"] in
  ∃ e evs,
    (post_convert (H := Sample.env) parts (Some "300") Sample.world).1 = Unhandled500 e ∧
    events (post_convert (H := Sample.env) parts (Some "300") Sample.world).2
    = events Sample.world ++ evs ∧
    engine_runs evs = 0%nat ∧
    (∀ i part p, parts !! i = Some part →
                 part_type part ≠ "application/pdf" → Staged i p ∉ evs) ∧
    (∀ q, is_output (H := Sample.env) q →
          fs (post_convert (H := Sample.env) parts (Some "300") Sample.world).2 !! q
          = fs Sample.world !! q).
Proof.
  apply (non_pdf_upload_is_rejected (H := Sample.env)).
  exists (mkPart "b.png" "image/png" "PNG"). split.
  - apply list_elem_of_further, list_elem_of_here.
  - simpl. discriminate.
Defined.

(** C10. Every entry of the [files] array of a successful /convert response
    is named by 32 lowercase hexadecimal characters followed by ".pdf", and
    its url is "/output/" followed by that name. *)
Theorem converted_names_and_urls `{Env} (files : list MulterFile)
    (dpi_field : option string) (w : World) message results w' :
  convert files dpi_field w = (Json200 message results, w') →
  ∀ r, r ∈ results →
    ∃ tok, is_token tok ∧ name r = tok +:+ ".pdf" ∧ url r = "/output/" +:+ name r.
Proof.
  rewrite convert_run. destruct (decide (files = [])); [done|].
  cbn zeta. destruct (decide (_ ∨ _)); [done|].
  destruct (convert_files _ _ _ _) as [[rs|e] w1] eqn:Hrun; [|done].
  intros [= _ -> ->] r Hr.
  apply convert_files_resolved in Hrun as [_ ->]. cbn [app] in Hr.
  apply list_elem_of_lookup in Hr as [i Hi].
  rewrite list_lookup_imap in Hi.
  destruct (files !! i) as [f|]; [|done]. cbn in Hi. injection Hi as <-.
  eexists. split; [apply token_at_is_token|]. done.
Qed.

Lemma converted_names_and_urls_witness :
  let r := mkResult "a.pdf" "030a11181f262d343b424950575e656c.pdf"
             "/output/030a11181f262d343b424950575e656c.pdf" 300 in
  ∃ tok, is_token tok ∧ name r = tok +:+ ".pdf" ∧ url r = "/output/" +:+ name r.
Proof.
  eapply (converted_names_and_urls (H := Sample.env) [Sample.good] (Some "300")
            Sample.stored).
  - vm_compute. reflexivity.
  - apply list_elem_of_here.
Defined.

(** * Further properties of the code *)

(** ** Reading the resolution *)

Lemma trim_start_padding (pad s : string) :
  Str.all is_js_whitespace pad = true → trim_start (pad +:+ s) = trim_start s.
Proof.
  induction pad as [|c pad IH]; [done|].
  intros Hall. simpl in Hall. apply andb_true_iff in Hall as [Hc Hpad].
  rewrite str_app_cons. cbn [trim_start]. rewrite Hc. by apply IH.
Qed.

Lemma parse_digits_stop (rest : string) (acc : option Z) :
  begins_with_digit rest = false → parse_digits 10 rest acc = acc.
Proof.
  destruct rest as [|c r]; [done|]. simpl. intros Hc.
  unfold digit_value, is_decimal_digit in *. rewrite Hc.
  set (n := Z.of_N (N_of_ascii c)) in *.
  destruct ((97 <=? n) && (n <=? 122)) eqn:H1.
  - apply andb_true_iff in H1 as [H1 _].
    destruct (Z.ltb_spec (n - 97 + 10) 10); [lia|done].
  - destruct ((65 <=? n) && (n <=? 90)) eqn:H2; [|done].
    apply andb_true_iff in H2 as [H2 _].
    destruct (Z.ltb_spec (n - 65 + 10) 10); [lia|done].
Qed.

(** A text that starts with a digit, and not with a hexadecimal prefix, is
    read in base ten with a positive sign. *)
Lemma parseInt_leading_digit (c : ascii) (x : string) :
  is_decimal_digit c = true →
  (c = "0"%char → begins_with_digit x = true ∨ x = EmptyString) →
  parseInt (String c x) =
    match parse_digits 10 (String c x) None with
    | None => NaN
    | Some m => Int m
    end.
Proof.
  intros Hc Hx. unfold parseInt.
  assert (trim_start (String c x) = String c x) as ->.
  { simpl. destruct c as [[] [] [] [] [] [] [] []]; done. }
  assert (∀ m, 1 * m = m) as Hone by (intros; lia).
  destruct (decide (c = "0"%char)) as [->|Hnz].
  - destruct (Hx eq_refl) as [Hd| ->].
    + destruct x as [|d x]; [done|]. simpl in Hd.
      destruct (decide (d = "x"%char)) as [->|Hx1]; [done|].
      destruct (decide (d = "X"%char)) as [->|Hx2]; [done|].
      assert ((let '(radix, s0) :=
                 match String "0" (String d x) with
                 | String "0" (String "x" r0) | String "0" (String "X" r0) => (16, r0)
                 | _ => (10, String "0" (String d x))
                 end%char in
               match parse_digits radix s0 None with
               | None => NaN
               | Some m => Int (1 * m)
               end) =
              match parse_digits 10 (String "0" (String d x)) None with
              | None => NaN
              | Some m => Int (1 * m)
              end) as Heq.
      { destruct d as [[] [] [] [] [] [] [] []]; done. }
      cbn zeta iota beta. etrans; [exact Heq|].
      destruct (parse_digits _ _ _); [by rewrite Hone|done].
    + done.
  - assert ((let '(sign, s) :=
               match String c x with
               | String "-" r => (-1, r)
               | String "+" r => (1, r)
               | _ => (1, String c x)
               end%char in
             let '(radix, s0) :=
               match s with
               | String "0" (String "x" r0) | String "0" (String "X" r0) => (16, r0)
               | _ => (10, s)
               end%char in
             match parse_digits radix s0 None with
             | None => NaN
             | Some m => Int (sign * m)
             end) =
            match parse_digits 10 (String c x) None with
            | None => NaN
            | Some m => Int (1 * m)
            end) as ->.
    { destruct c as [[] [] [] [] [] [] [] []]; done. }
    destruct (parse_digits _ _ _); [by rewrite Hone|done].
Qed.

Lemma parseInt_padded_number (pad rest : string) (z : Z) :
  1 ≤ z →
  Str.all is_js_whitespace pad = true →
  begins_with_digit rest = false →
  parseInt (pad +:+ number_to_string z +:+ rest) = Int z.
Proof.
  intros Hz Hpad Hrest.
  destruct (number_to_string_nonneg z) as (Hall & Hne & Hparse); [lia|].
  pose proof (Hparse rest None) as Hp.
  rewrite (parse_digits_stop rest) in Hp by done. cbn [default] in Hp.
  pose proof (Hparse EmptyString None) as H0.
  rewrite str_app_nil_r in H0. cbn [default] in H0.
  destruct (number_to_string z) as [|c tl] eqn:Hs; [done|].
  simpl in Hall. apply andb_true_iff in Hall as [Hc Htl].
  assert (trim_start (pad +:+ String c tl +:+ rest) = String c (tl +:+ rest)) as Htrim.
  { rewrite trim_start_padding by done. rewrite str_app_cons. simpl.
    destruct c as [[] [] [] [] [] [] [] []]; done. }
  assert (parseInt (pad +:+ String c tl +:+ rest) = parseInt (String c (tl +:+ rest)))
    as ->.
  { unfold parseInt. rewrite Htrim.
    assert (trim_start (String c (tl +:+ rest)) = String c (tl +:+ rest)) as ->; [|done].
    simpl. destruct c as [[] [] [] [] [] [] [] []]; done. }
  rewrite parseInt_leading_digit; [|done|].
  - rewrite <- str_app_cons, Hp. f_equal; lia.
  - intros ->. destruct tl as [|d tl'].
    + simpl in H0. injection H0 as H0. lia.
    + left. rewrite str_app_cons. simpl in Htl |- *.
      by apply andb_true_iff in Htl as [? _].
Qed.

(** X1. Leading white space and whatever follows the digits are not read:
    a dpi field made of white space, the decimal numeral of a positive
    integer and a rest that does not begin with a digit gives that integer
    as the target resolution. *)
Theorem dpi_padding_and_suffix_ignored (pad rest : string) (z : Z) :
  1 ≤ z →
  Str.all is_js_whitespace pad = true →
  begins_with_digit rest = false →
  targetDPI_of (Some (pad +:+ number_to_string z +:+ rest)) = z.
Proof.
  intros Hz Hpad Hrest. unfold targetDPI_of. cbn [to_js_string].
  rewrite parseInt_padded_number by done. cbn [or_default].
  destruct (decide (z = 0)); [lia|done].
Qed.

Lemma dpi_padding_and_suffix_ignored_witness :
  targetDPI_of (Some ("  " +:+ number_to_string 150 +:+ ".5 dpi")) = 150.
Proof.
  apply (dpi_padding_and_suffix_ignored "  " ".5 dpi" 150); [lia|reflexivity..].
Defined.

(** X2. A dpi field that is the decimal numeral of an integer from 72 to
    2400 is taken as it is: that integer is the target resolution, a
    request with files is not refused, and every entry of its response
    reports it. *)
Theorem decimal_dpi_is_used `{Env} (z : Z) :
  72 ≤ z ≤ 2400 →
  targetDPI_of (Some (number_to_string z)) = z ∧
  ∀ files w,
    files ≠ [] →
    status (convert files (Some (number_to_string z)) w).1 ≠ 400 ∧
    ∀ r, r ∈ response_files (convert files (Some (number_to_string z)) w).1 →
         dpi r = z.
Proof.
  intros Hz.
  assert (targetDPI_of (Some (number_to_string z)) = z) as Ht.
  { unfold targetDPI_of. cbn [to_js_string].
    rewrite parseInt_number_to_string. cbn [or_default].
    destruct (decide (z = 0)); [lia|done]. }
  split; [done|]. intros files w Hne.
  rewrite convert_run, Ht. destruct (decide (files = [])); [done|].
  cbn zeta. destruct (decide (_ ∨ _)); [lia|].
  destruct (convert_files _ _ _ _) as [[rs|e] w1] eqn:Hrun; cbn [fst status].
  - split; [done|]. cbn [response_files].
    apply convert_files_resolved in Hrun as [_ ->]. cbn [app].
    intros r [j Hj]%list_elem_of_lookup. rewrite list_lookup_imap in Hj.
    destruct (files !! j); [|done]. cbn in Hj. by injection Hj as <-.
  - split; [done|]. by intros r ?%elem_of_nil.
Qed.

Lemma decimal_dpi_is_used_witness :
  targetDPI_of (Some (number_to_string 600)) = 600.
Proof.
  exact (proj1 (decimal_dpi_is_used (H := Sample.env) 600 ltac:(lia))).
Defined.

Lemma out_of_range_rejected_witness :
  convert (H := Sample.env) [Sample.good] (Some (number_to_string (-150))) Sample.stored
  = (Json400 "DPI must be between 72 and 2400", Sample.stored).
Proof.
  apply (out_of_range_rejected (H := Sample.env)); [done|lia|lia].
Defined.

(** ** What a request may do *)

(** X4. The engine is never started outside the allowed range: every
    command line a /convert request runs sets both device resolutions to
    one number between 72 and 2400, and every directive it writes sets the
    three image resolutions to such a number. *)
Theorem engine_never_run_out_of_range `{Env} (files : list MulterFile)
    (dpi_field : option string) (w : World) :
  ∃ evs t,
    events (convert files dpi_field w).2 = events w ++ evs ∧
    (evs ≠ [] → 72 ≤ t ≤ 2400) ∧
    (∀ cmd, Exec cmd ∈ evs →
            device_resolution "X" cmd = Some t ∧ device_resolution "Y" cmd = Some t) ∧
    (∀ p d, WriteFile p d ∈ evs →
            entry "/ColorImageResolution" d ≫= read_decimal = Some t ∧
            entry "/GrayImageResolution" d ≫= read_decimal = Some t ∧
            entry "/MonoImageResolution" d ≫= read_decimal = Some t).
Proof.
  destruct (convert files dpi_field w) as [resp w'] eqn:Hrun.
  apply convert_events in Hrun as (evs & Hev & Hall & Hrange).
  exists evs, (targetDPI_of dpi_field). cbn [snd].
  rewrite Forall_forall in Hall. split_and!; [done..| |].
  - intros cmd Hin. destruct (Hall _ Hin) as (f & tok & _ & _ & ->).
    apply command_resolution.
  - intros p d Hin. destruct (Hall _ Hin) as (f & tok & _ & _ & _ & ->).
    destruct (directive_entries (targetDPI_of dpi_field)) as (-> & -> & -> & _).
    cbn [mbind option_bind]. by rewrite read_number_to_string.
Qed.

(** X5. A /convert request is answered with 200, 400 or 500.  It is
    answered with 400 exactly when it has no file or its target resolution
    is below 72 or above 2400, the missing files being reported first, and
    then nothing at all is done: no file is written or removed, no engine
    is run, nothing is logged. *)
Theorem refusal_has_no_effect `{Env} (files : list MulterFile)
    (dpi_field : option string) (w : World) :
  let run := convert files dpi_field w in
  (status run.1 = 200 ∨ status run.1 = 400 ∨ status run.1 = 500) ∧
  (status run.1 = 400 ↔
   files = [] ∨ targetDPI_of dpi_field < 72 ∨ targetDPI_of dpi_field > 2400) ∧
  (status run.1 = 400 → run.2 = w) ∧
  (files = [] → run.1 = Json400 "No files uploaded") ∧
  (files ≠ [] → status run.1 = 400 → run.1 = Json400 "DPI must be between 72 and 2400").
Proof.
  cbn zeta. rewrite convert_run.
  destruct (decide (files = [])) as [->|Hne]; cbn [fst snd status].
  { split_and!; [auto|split; auto|done..]. }
  cbn zeta. destruct (decide (_ ∨ _)) as [Hbad|Hok]; cbn [fst snd status].
  { split_and!; [auto|split; auto|done..]. }
  destruct (convert_files _ _ _ _) as [[rs|e] w1]; cbn [fst snd status].
  - split_and!; [auto|split; [done|intros [?|?]; [done|lia]]|done..].
  - split_and!; [auto|split; [done|intros [?|?]; [done|lia]]|done..].
Qed.

Section MoreFacts.

Context `{Env}.

Lemma starts_with_app (p s : string) : Str.starts_with p (p +:+ s) = true.
Proof.
  induction p as [|c p IH]; [done|].
  rewrite str_app_cons. simpl. by destruct (decide (c = c)).
Qed.

(** A batch changes no file but the directive, the staged files it is given
    and the outputs of its tokens, with an engine that writes only its
    output. *)
Lemma convert_files_touch (t : Z) (files : list MulterFile) rs (w : World) r w'
    (p : string) :
  engine_frame →
  convert_files t files rs w = (r, w') →
  p ≠ resolve psFile →
  (∀ f, f ∈ files → p ≠ resolve (path f)) →
  (∀ j, (j < length files)%nat →
        p ≠ output_path (token_at (drawn w + 16 * j) +:+ ".pdf")) →
  fs w' !! p = fs w !! p.
Proof.
  intros Hframe. revert rs w.
  induction files as [|f files IH]; intros rs w.
  { by intros [= <- <-]. }
  cbn [convert_files]. unfold mbind, M_bind.
  destruct (convert_file t f rs w) as [r1 w1] eqn:Hrun.
  apply convert_file_spec in Hrun as (Hd & _ & _ & _ & Hfr).
  intros Hrest Hps Hpaths Hfresh.
  assert (fs w1 !! p = fs w !! p) as H1.
  { apply Hfr; [done..|apply Hpaths, list_elem_of_here|].
    specialize (Hfresh O ltac:(cbn [length]; lia)).
    by rewrite Nat.mul_0_r, Nat.add_0_r in Hfresh. }
  destruct r1 as [rs1|e1].
  - rewrite <- H1. eapply IH; [exact Hrest|done| |].
    + intros g Hg. by apply Hpaths, list_elem_of_further.
    + intros j Hj. specialize (Hfresh (S j) ltac:(cbn [length]; lia)).
      rewrite Hd.
      by replace (drawn w + 16 + 16 * j)%nat with (drawn w + 16 * S j)%nat by lia.
  - by simplify_eq.
Qed.

Lemma staged_path_not_output (g : MulterFile) (fname : string) :
  staged g → resolve (path g) ≠ output_path fname.
Proof. intros Hg Heq. eapply (staged_not_output g); [done|by eexists|done]. Qed.

Lemma staged_path_not_directive (g : MulterFile) :
  staged g → filename g ≠ "setdpi.ps" → resolve (path g) ≠ resolve psFile.
Proof.
  intros Hg Hname Heq. apply resolve_inj in Heq. rewrite Hg in Heq.
  unfold psFile, path_join in Heq.
  change ("uploads" +:+ "/" +:+ "setdpi.ps") with ("uploads/" +:+ "setdpi.ps") in Heq.
  by apply (inj (String.app "uploads/")) in Heq.
Qed.

(** A staged file that is gone stays gone, and the files of a batch that
    went through are gone. *)
Lemma convert_files_removes (t : Z) (files : list MulterFile) rs (w : World) rs' w'
    (g : MulterFile) :
  engine_frame → unlink_reliable →
  convert_files t files rs w = (Resolved rs', w') →
  staged g → filename g ≠ "setdpi.ps" →
  fs w !! resolve (path g) = None ∨ g ∈ files →
  fs w' !! resolve (path g) = None.
Proof.
  intros Hframe Hrel Hrun Hg Hname. revert rs w Hrun.
  induction files as [|f files IH]; intros rs w.
  { intros [= <- <-] [?|?%elem_of_nil]; done. }
  cbn [convert_files]. unfold mbind, M_bind.
  destruct (convert_file t f rs w) as [[rs1|e1] w1] eqn:Hf; [|done].
  intros Hrest Hcase. apply (IH _ _ Hrest).
  apply convert_file_spec in Hf as (_ & _ & Hgone & _ & Hfr).
  destruct (decide (resolve (path g) = resolve (path f))) as [->|Hne];
    [left; by apply Hgone|].
  destruct Hcase as [Hnone|[->|Hin]%elem_of_cons]; [|done|by right].
  left. rewrite <- Hnone.
  apply Hfr; [done|by apply staged_path_not_directive|done|by apply staged_path_not_output].
Qed.

Lemma convert_file_resolved_write (t : Z) (f : MulterFile) rs (w : World) rs' w' :
  convert_file t f rs w = (Resolved rs', w') →
  write_error (resolve psFile) (fs w) = None.
Proof.
  rewrite convert_file_run. cbn zeta. rewrite setPdfDPI_run.
  cbn zeta. cbn [fs drawn events]. by destruct (write_error _ _).
Qed.

Lemma convert_files_resolved_directive (t : Z) (files : list MulterFile) rs
    (w : World) rs' w' :
  unlink_reliable →
  files ≠ [] →
  convert_files t files rs w = (Resolved rs', w') →
  fs w' !! resolve psFile = None.
Proof.
  intros Hrel.
  revert rs w. induction files as [|f files IH]; intros rs w Hne; [done|].
  cbn [convert_files]. unfold mbind, M_bind.
  destruct (convert_file t f rs w) as [[rs1|e1] w1] eqn:Hf; [|done].
  destruct files as [|g files].
  - intros [= <- <-].
    pose proof (convert_file_cleans_up _ _ _ _ _ _ Hrel Hf) as [_ Hdir].
    apply Hdir. by eapply convert_file_resolved_write.
  - intros Hrest. by eapply IH.
Qed.

End MoreFacts.

(** X6. A request answered with 200 reports every file of the batch, once
    and in the order of the request, under its original name and at the
    target resolution; the engine was run exactly once per file and sixteen
    random bytes were drawn per file. *)
Theorem success_reports_every_file `{Env} (files : list MulterFile)
    (dpi_field : option string) (w : World) message results w' :
  convert files dpi_field w = (Json200 message results, w') →
  message = "Files processed successfully" ∧
  originalName <$> results = originalname <$> files ∧
  Forall (λ r, dpi r = targetDPI_of dpi_field) results ∧
  engine_runs (events w') = (engine_runs (events w) + length files)%nat ∧
  drawn w' = (drawn w + 16 * length files)%nat.
Proof.
  rewrite convert_run. destruct (decide (files = [])); [done|].
  cbn zeta. destruct (decide (_ ∨ _)); [done|].
  destruct (convert_files _ _ _ _) as [[rs|e] w1] eqn:Hrun; [|done].
  intros [= <- <- <-].
  pose proof (convert_files_resolved_runs _ _ _ _ _ _ Hrun) as Hruns.
  apply convert_files_resolved in Hrun as [Hd ->]. cbn [app].
  split_and!; [done| | |done..].
  - apply list_eq. intros j.
    rewrite !list_lookup_fmap, list_lookup_imap. by destruct (files !! j).
  - apply Forall_forall. intros r [j Hj]%list_elem_of_lookup.
    rewrite list_lookup_imap in Hj.
    destruct (files !! j); [|done]. cbn in Hj. by injection Hj as <-.
Qed.

Lemma success_reports_every_file_witness :
  let run := convert (H := Sample.env) [Sample.good; Sample.late] (Some "300")
               Sample.stored in
  originalName <$> response_files run.1 = ["a.pdf"; "c.pdf"] ∧
  engine_runs (events run.2) = 2%nat.
Proof.
  edestruct (success_reports_every_file (H := Sample.env) [Sample.good; Sample.late]
               (Some "300") Sample.stored) as (_ & Hnames & _ & Hruns & _).
  - vm_compute. reflexivity.
  - split; [exact Hnames|exact Hruns].
Defined.

(** X7. Where no unlink fails, nothing of a request answered with 200 is
    left in the uploads directory: the staged file of every file of the
    batch is gone, and so is the directive (for files stored under
    "uploads/" by a name other than that of the directive, and an engine
    that writes nothing but its output). *)
Theorem success_leaves_nothing_staged `{Env} (files : list MulterFile)
    (dpi_field : option string) (w : World) :
  unlink_reliable →
  engine_frame →
  Forall (λ f, staged f ∧ filename f ≠ "setdpi.ps") files →
  status (convert files dpi_field w).1 = 200 →
  (∀ f, f ∈ files → fs (convert files dpi_field w).2 !! resolve (path f) = None) ∧
  fs (convert files dpi_field w).2 !! resolve psFile = None.
Proof.
  intros Hrel Hframe Hfiles. rewrite convert_run.
  destruct (decide (files = [])); [done|].
  cbn zeta. destruct (decide (_ ∨ _)); [done|].
  destruct (convert_files _ _ _ _) as [[rs|e] w1] eqn:Hrun; [|done].
  intros _. cbn [snd]. split.
  - intros f Hf. rewrite Forall_forall in Hfiles. destruct (Hfiles f Hf).
    eapply convert_files_removes; eauto.
  - by eapply convert_files_resolved_directive.
Qed.

Lemma success_leaves_nothing_staged_witness :
  let after := (convert (H := Sample.env) [Sample.good; Sample.late] (Some "300")
                  Sample.stored).2 in
  (∀ f, f ∈ [Sample.good; Sample.late] →
        fs after !! resolve (H := Sample.env) (path f) = None) ∧
  fs after !! resolve (H := Sample.env) psFile = None.
Proof.
  apply (success_leaves_nothing_staged (H := Sample.env)).
  - by intros p m.
  - exact sample_engine_frame.
  - repeat constructor; done.
  - by vm_compute.
Defined.

(** X8. A request answered with 500 failed at one file of the batch: the
    body has the error "Internal Server Error" and details that begin with
    "Failed to create PostScript file: " or with "Failed to set PDF DPI: ";
    random bytes were drawn for the files up to the failing one and for no
    later one, the engine was run for each file before it and at most once
    more, and the staged file of the failing file is gone where no unlink
    fails. *)
Theorem failure_names_its_cause `{Env} (files : list MulterFile)
    (dpi_field : option string) (w : World) error details w' :
  convert files dpi_field w = (Json500 error details, w') →
  error = "Internal Server Error" ∧
  (Str.starts_with "Failed to create PostScript file: " details = true ∨
   Str.starts_with "Failed to set PDF DPI: " details = true) ∧
  ∃ pre f post,
    files = pre ++ f :: post ∧
    drawn w' = (drawn w + 16 * (length pre + 1))%nat ∧
    (unlink_reliable → fs w' !! resolve (path f) = None) ∧
    (engine_runs (events w) + length pre ≤ engine_runs (events w')
     ≤ engine_runs (events w) + length pre + 1)%nat.
Proof.
  rewrite convert_run. destruct (decide (files = [])); [done|].
  cbn zeta. destruct (decide (_ ∨ _)); [done|].
  destruct (convert_files _ _ _ _) as [[rs|e] w1] eqn:Hrun; [done|].
  intros [= <- <- <-]. split; [done|].
  apply convert_files_rejected in Hrun
    as (pre & f & post & rs1 & w0 & -> & Hpre & Hfail).
  pose proof (convert_files_resolved_runs _ _ _ _ _ _ Hpre) as Hruns.
  apply convert_files_resolved in Hpre as [Hd _].
  pose proof (convert_file_rejected_message _ _ _ _ _ _ Hfail) as Hmsg.
  apply convert_file_spec in Hfail as (Hd1 & _ & Hgone & _).
  split.
  - destruct Hmsg as [(e0 & _ & -> & _)|(e0 & _ & -> & _)];
      [left|right]; apply starts_with_app.
  - exists pre, f, post. unfold console_error, log. cbn [fs drawn events].
    rewrite engine_runs_snoc. cbn [is_exec].
    split_and!; [done|lia|done|..];
      destruct Hmsg as [(e0 & _ & _ & Hr)|(e0 & _ & _ & Hr)]; lia.
Qed.

Lemma failure_names_its_cause_witness :
  let run := convert (H := Sample.env) [Sample.good; Sample.bad; Sample.late]
               (Some "300") Sample.stored in
  ∃ details,
    run.1 = Json500 "Internal Server Error" details ∧
    (Str.starts_with "Failed to create PostScript file: " details = true ∨
     Str.starts_with "Failed to set PDF DPI: " details = true) ∧
    fs run.2 !! resolve (H := Sample.env) (path Sample.bad) = None.
Proof.
  intros run.
  assert (∃ details w', run = (Json500 "Internal Server Error" details, w'))
    as (details & w' & Hrun).
  { do 2 eexists. vm_compute. reflexivity. }
  exists details. rewrite Hrun. cbn [fst snd]. split; [done|].
  destruct (failure_names_its_cause (H := Sample.env)
              [Sample.good; Sample.bad; Sample.late] (Some "300") Sample.stored
              _ _ _ Hrun)
    as (_ & Hprefix & pre & f & post & Hfiles & Hd & Hgone & _).
  split; [exact Hprefix|].
  assert (drawn run.2 = 32%nat) as Hdrawn by (by vm_compute).
  rewrite Hrun in Hdrawn. cbn [snd] in Hdrawn.
  rewrite Hdrawn in Hd. cbn [Sample.stored drawn] in Hd.
  destruct pre as [|a [|b pre]]; cbn [length] in Hd; [lia| |lia].
  injection Hfiles as _ <- _. apply Hgone. by intros p m.
Defined.

(** X9. When the directive cannot be written for the first file, the
    request is answered with 500 and the message of the write error after
    "Failed to create PostScript file: "; the engine is not run, and apart
    from the directive no file is changed but the staged first file, which
    is removed unless its unlink fails. *)
Theorem unwritable_directive `{Env} (f : MulterFile) (files : list MulterFile)
    (dpi_field : option string) (w : World) (e : string) :
  72 ≤ targetDPI_of dpi_field ≤ 2400 →
  write_error (resolve psFile) (fs w) = Some e →
  let run := convert (f :: files) dpi_field w in
  run.1 = Json500 "Internal Server Error" ("Failed to create PostScript file: " +:+ e) ∧
  (∀ p, p ≠ resolve psFile → fs run.2 !! p = unlinked (path f) (fs w) !! p) ∧
  engine_runs (events run.2) = engine_runs (events w).
Proof.
  intros Hrange Hw. cbn zeta. rewrite convert_run.
  destruct (decide (f :: files = [])); [done|].
  cbn zeta. destruct (decide (_ ∨ _)); [lia|].
  cbn [convert_files]. unfold mbind, M_bind.
  rewrite convert_file_run. cbn zeta. rewrite setPdfDPI_run.
  cbn zeta. cbn [fs drawn events]. rewrite Hw. cbn [fst snd].
  destruct (unlink_run (path f) ["Cleanup error:"]
    (console_error ["Processing error:"; "Failed to create PostScript file: " +:+ e]
       (log (WriteFile psFile (psContent (targetDPI_of dpi_field)))
          (mkWorld (fs w) (drawn w + 16) (events w))))) as (tail & Hun & Htail).
  split_and!; [done| |].
  - intros p _. unfold console_error at 1. unfold log at 1. cbn [fs].
    by rewrite Hun.
  - unfold console_error at 1. unfold log at 1. cbn [events].
    rewrite engine_runs_snoc, unlink_runs. unfold console_error, log.
    cbn [events is_exec]. rewrite !engine_runs_snoc. cbn [is_exec]. lia.
Qed.

Lemma unwritable_directive_witness :
  let run := convert (H := Sample.env_readonly) [Sample.good; Sample.late]
               (Some "300") Sample.stored in
  run.1 = Json500 "Internal Server Error"
            ("Failed to create PostScript file: " +:+
             "EACCES: permission denied, open 'uploads/setdpi.ps'") ∧
  (∀ p, p ≠ resolve (H := Sample.env_readonly) psFile →
        fs run.2 !! p
        = unlinked (H := Sample.env_readonly) (path Sample.good) (fs Sample.stored) !! p) ∧
  engine_runs (events run.2) = engine_runs (events Sample.stored).
Proof.
  apply (unwritable_directive (H := Sample.env_readonly)).
  - change (targetDPI_of (Some "300")) with 300. lia.
  - reflexivity.
Defined.

(** X10. A /convert request changes no file other than the directive, the
    staged files of its batch and the outputs named by its tokens, with an
    engine that writes nothing but its output. *)
Theorem request_touches_only_its_files `{Env} (files : list MulterFile)
    (dpi_field : option string) (w : World) (p : string) :
  engine_frame →
  p ≠ resolve psFile →
  (∀ f, f ∈ files → p ≠ resolve (path f)) →
  (∀ j, (j < length files)%nat →
        p ≠ output_path (token_at (drawn w + 16 * j) +:+ ".pdf")) →
  fs (convert files dpi_field w).2 !! p = fs w !! p.
Proof.
  intros Hframe Hps Hpaths Hfresh. rewrite convert_run.
  destruct (decide (files = [])); [done|].
  cbn zeta. destruct (decide (_ ∨ _)); [done|].
  destruct (convert_files _ _ _ _) as [[rs|e] w1] eqn:Hrun; cbn [snd];
    [|unfold console_error, log; cbn [fs]];
    by eapply convert_files_touch.
Qed.

Lemma request_touches_only_its_files_witness :
  fs (convert (H := Sample.env) [Sample.good] (Some "300") Sample.stored).2
    !! "/srv/app/uploads/cc.pdf"
  = fs Sample.stored !! "/srv/app/uploads/cc.pdf".
Proof.
  apply (request_touches_only_its_files (H := Sample.env)).
  - exact sample_engine_frame.
  - by vm_compute.
  - intros f ->%list_elem_of_singleton. by vm_compute.
  - intros j Hj. assert (j = O) as -> by (cbn in Hj; lia). by vm_compute.
Defined.

(** ** Names on disk *)

Lemma unhex_step (b : byte) (s : string) :
  unhex (String (hex_digit (Byte.to_N b / 16))
           (String (hex_digit (Byte.to_N b mod 16)) s))
  = (λ r, b :: r) <$> unhex s.
Proof. destruct (unhex s) as [r|] eqn:Hs; destruct b; simpl; by rewrite Hs. Qed.

(** X11. The hexadecimal text of a buffer gives the buffer back, byte for
    byte, and has two characters per byte: two buffers with the same text
    are the same buffer, so a staged name or an output name repeats only
    if the same sixteen random bytes are drawn again. *)
Theorem hex_is_lossless (buf : list byte) :
  unhex (hex buf) = Some buf ∧
  String.length (hex buf) = (2 * length buf)%nat ∧
  ∀ other, hex other = hex buf → other = buf.
Proof.
  assert (∀ l, unhex (hex l) = Some l) as Hback.
  { induction l as [|b l IH]; [done|].
    cbn [hex]. rewrite unhex_step, IH. done. }
  split_and!; [done|apply hex_length|].
  intros other Heq. apply (f_equal unhex) in Heq.
  rewrite !Hback in Heq. by injection Heq.
Qed.

Lemma token_first_char `{Env} (k : nat) :
  ∃ c rest, token_at k = String c rest ∧ is_lower_hex c = true.
Proof.
  unfold token_at. cbn [seq fmap list_fmap hex].
  do 2 eexists. split; [reflexivity|apply hex_digit_lower].
Qed.

(** X12. An upload is stored under "uploads/" by a name made of the token
    of sixteen fresh random bytes and the extension of its original name;
    whatever that extension is, the stored path is neither the path of the
    directive nor a path of the output directory, the file holds the data
    of the part, and no other file is changed. *)
Theorem upload_is_stored_under_token `{Env} (index : nat) (p : Part) (w : World) :
  ∃ f,
    (store index p w).1 = Resolved f ∧
    filename f = token_at (drawn w) +:+ extname (part_filename p) ∧
    path f = "uploads/" +:+ filename f ∧
    originalname f = part_filename p ∧
    resolve (path f) ≠ resolve psFile ∧
    ¬ is_output (resolve (path f)) ∧
    fs (store index p w).2 !! resolve (path f) = Some (part_data p) ∧
    ∀ q, q ≠ resolve (path f) → fs (store index p w).2 !! q = fs w !! q.
Proof.
  set (fname := token_at (drawn w) +:+ extname (part_filename p)).
  set (f := mkFile (part_filename p) (part_type p) fname ("uploads/" +:+ fname)).
  assert (staged f) as Hstaged by done.
  exists f.
  unfold store, storage_filename, randomBytes, mbind, M_bind, mret, M_ret.
  cbn [fs drawn events path filename originalname fst snd].
  fold (token_at (drawn w)). fold fname. fold f.
  split_and!; [reflexivity|done..| | | |].
  - intros Heq%resolve_inj. unfold psFile, path_join in Heq.
    change ("uploads" +:+ "/" +:+ "setdpi.ps") with ("uploads/" +:+ "setdpi.ps") in Heq.
    apply (inj (String.app "uploads/")) in Heq.
    destruct (token_first_char (drawn w)) as (c & rest & Htok & Hc).
    subst fname. rewrite Htok, str_app_cons in Heq. injection Heq as -> _. done.
  - intros Hout. by eapply (staged_not_output f).
  - apply lookup_insert_eq.
  - intros q Hq. by apply lookup_insert_ne.
Qed.

(** ** Start-up *)

Section StartupFacts.

Context `{Env}.

Lemma ensure_directory_fixed files (dirs : gset string) (dir : string) :
  path_exists files dirs dir → ensure_directory files dirs dir = dirs.
Proof. intros Hex. unfold ensure_directory. by destruct (decide _). Qed.

Lemma ensure_directory_exists files (dirs : gset string) (dir : string) :
  path_exists files (ensure_directory files dirs dir) dir.
Proof.
  unfold ensure_directory. destruct (decide _) as [Hex|Hno]; [done|].
  right. apply elem_of_union. left. by apply elem_of_singleton.
Qed.

Lemma ensure_directory_keeps files (dirs : gset string) (dir p : string) :
  path_exists files dirs p → path_exists files (ensure_directory files dirs dir) p.
Proof.
  intros [Hfile|Hdir]; [by left|]. right.
  unfold ensure_directory. destruct (decide _); [done|].
  apply elem_of_union. by right.
Qed.

Lemma ensure_directory_new files (dirs : gset string) (dir x : string) :
  x ∈ ensure_directory files dirs dir →
  x ∈ dirs ∨ (x = resolve dir ∧ files !! resolve dir = None).
Proof.
  unfold ensure_directory. destruct (decide _) as [Hex|Hno]; [by left|].
  intros [->%elem_of_singleton|Hin]%elem_of_union; [right|by left].
  split; [done|]. destruct (files !! resolve dir) eqn:Hf; [|done].
  destruct Hno. left. by eexists.
Qed.

End StartupFacts.

(** X13. After [ensureDirectories] something exists at "uploads" and at
    "output"; the directories that existed are kept and only these two
    can be new; a path that holds a file is left as it is, no directory
    being made in its place; and a second run changes nothing. *)
Theorem ensureDirectories_settles `{Env} (files : gmap string string)
    (dirs : gset string) :
  let dirs' := ensureDirectories files dirs in
  path_exists files dirs' "uploads" ∧
  path_exists files dirs' "output" ∧
  dirs ⊆ dirs' ∧
  dirs' ⊆ dirs ∪ {[resolve "uploads"; resolve "output"]} ∧
  (∀ dir, is_Some (files !! resolve dir) → resolve dir ∈ dirs' → resolve dir ∈ dirs) ∧
  ensureDirectories files dirs' = dirs'.
Proof.
  cbn zeta. unfold ensureDirectories. cbn [foldl].
  set (d1 := ensure_directory files dirs "uploads").
  set (d2 := ensure_directory files d1 "output").
  assert (path_exists files d2 "uploads") as Hup.
  { apply ensure_directory_keeps, ensure_directory_exists. }
  assert (path_exists files d2 "output") as Hout.
  { apply ensure_directory_exists. }
  assert (∀ x, x ∈ d2 →
            x ∈ dirs ∨ (x = resolve "uploads" ∧ files !! resolve "uploads" = None)
            ∨ (x = resolve "output" ∧ files !! resolve "output" = None)) as Hnew.
  { intros x [Hx|Hx]%ensure_directory_new; [|by right; right].
    apply ensure_directory_new in Hx as [?|?]; auto. }
  split_and!; [done..| | | |].
  - intros x Hx.
    unfold d2, d1, ensure_directory.
    repeat destruct (decide _); rewrite ?elem_of_union; auto.
  - intros x Hx. rewrite !elem_of_union, !elem_of_singleton.
    destruct (Hnew x Hx) as [?|[[-> _]|[-> _]]]; auto.
  - intros dir [v Hfile] Hin.
    destruct (Hnew _ Hin) as [?|[[Heq Hno]|[Heq Hno]]]; [done|..];
      rewrite Heq in Hfile; congruence.
  - rewrite (ensure_directory_fixed files d2 "uploads") by done.
    by rewrite ensure_directory_fixed.
Qed.


(** ** The command line as a list of words *)

Lemma words_blank (s : string) : words (" " +:+ s) = words s.
Proof. done. Qed.

Lemma words_blanks (pad s : string) :
  Str.all is_blank pad = true → words (pad +:+ s) = words s.
Proof.
  induction pad as [|c pad IH]; [done|].
  intros Hall. simpl in Hall. apply andb_true_iff in Hall as [Hc Hpad].
  rewrite str_app_cons. unfold words in *. cbn [split]. rewrite Hc.
  rewrite filter_cons_False by (by intros ?). by apply IH.
Qed.

Lemma words_word (w s : string) :
  Str.all (λ c, negb (is_blank c)) w = true → w ≠ EmptyString →
  words (w +:+ " " +:+ s) = w :: words s.
Proof.
  intros Hw Hne. unfold words. rewrite split_app, (split_plain _ w) by done.
  change (split is_blank (" " +:+ s)) with (EmptyString :: split is_blank s).
  cbn [glue]. rewrite str_app_nil_r. by rewrite filter_cons_True.
Qed.

Lemma words_last (w : string) :
  Str.all (λ c, negb (is_blank c)) w = true → w ≠ EmptyString → words w = [w].
Proof.
  intros Hw Hne. unfold words. rewrite split_plain by done.
  by rewrite filter_cons_True.
Qed.

Lemma quoted_word (key p : string) :
  Str.all (λ c, negb (is_blank c)) key = true →
  Str.all (λ c, negb (is_blank c)) p = true →
  Str.all (λ c, negb (is_blank c)) (key +:+ quote +:+ p +:+ quote) = true ∧
  key +:+ quote +:+ p +:+ quote ≠ EmptyString.
Proof.
  intros Hkey Hp. split.
  - rewrite !str_all_app, Hkey, Hp. done.
  - destruct key; done.
Qed.

(** X14. For paths without blanks, the command line of an engine run is,
    word by word: gs, the fixed device, batch, quality and compatibility
    switches, the two device resolutions, the fixed-media and colour
    switches, then the directive and after it the input as quoted -f
    arguments, and last the quoted output file. *)
Theorem command_word_by_word (ps inp out : string) (t : Z) :
  Str.all (λ c, negb (is_blank c)) ps = true →
  Str.all (λ c, negb (is_blank c)) inp = true →
  Str.all (λ c, negb (is_blank c)) out = true →
  words (command ps inp out t) =
    ["gs"; "-sDEVICE=pdfwrite"; "-dNOPAUSE"; "-dBATCH"; "-dQUIET";
     "-dPDFSETTINGS=/prepress"; "-dCompatibilityLevel=1.4";
     "-dDEVICEXRESOLUTION=" +:+ number_to_string t;
     "-dDEVICEYRESOLUTION=" +:+ number_to_string t;
     "-dFIXEDMEDIA"; "-dPDFX"; "-dUseCIEColor";
     "-f"; quote +:+ ps +:+ quote;
     "-f"; quote +:+ inp +:+ quote;
     "-sOutputFile=" +:+ quote +:+ out +:+ quote].
Proof.
  intros Hps Hinp Hout.
  assert (Str.all (λ c, negb (is_blank c)) (number_to_string t) = true) as Hn.
  { eapply all_impl; [|apply number_to_string_chars].
    intros c Hc. by rewrite (blank_not_in_number c Hc). }
  assert (Str.all is_blank gap = true) as Hgap by done.
  assert (command ps inp out t =
    "gs" +:+ " " +:+ gap +:+ "-sDEVICE=pdfwrite" +:+ " " +:+
    gap +:+ "-dNOPAUSE" +:+ " " +:+
    gap +:+ "-dBATCH" +:+ " " +:+
    gap +:+ "-dQUIET" +:+ " " +:+
    gap +:+ "-dPDFSETTINGS=/prepress" +:+ " " +:+
    gap +:+ "-dCompatibilityLevel=1.4" +:+ " " +:+
    gap +:+ ("-dDEVICEXRESOLUTION=" +:+ number_to_string t) +:+ " " +:+
    gap +:+ ("-dDEVICEYRESOLUTION=" +:+ number_to_string t) +:+ " " +:+
    gap +:+ "-dFIXEDMEDIA" +:+ " " +:+
    gap +:+ "-dPDFX" +:+ " " +:+
    gap +:+ "-dUseCIEColor" +:+ " " +:+
    gap +:+ "-f" +:+ " " +:+ (EmptyString +:+ quote +:+ ps +:+ quote) +:+ " " +:+
    gap +:+ "-f" +:+ " " +:+ (EmptyString +:+ quote +:+ inp +:+ quote) +:+ " " +:+
    gap +:+ ("-sOutputFile=" +:+ quote +:+ out +:+ quote)) as ->.
  { unfold command. rewrite !str_app_assoc. reflexivity. }
  destruct (quoted_word EmptyString ps eq_refl Hps) as [Hq1 Hq1'].
  destruct (quoted_word EmptyString inp eq_refl Hinp) as [Hq2 Hq2'].
  destruct (quoted_word "-sOutputFile=" out eq_refl Hout) as [Hq3 Hq3'].
  assert (∀ key, Str.all (λ c, negb (is_blank c)) key = true → key ≠ EmptyString →
            Str.all (λ c, negb (is_blank c)) (key +:+ number_to_string t) = true ∧
            key +:+ number_to_string t ≠ EmptyString) as Hnum.
  { intros key Hkey Hne. split; [by rewrite str_all_app, Hkey, Hn|by destruct key]. }
  destruct (Hnum "-dDEVICEXRESOLUTION=" eq_refl ltac:(done)) as [Hx Hx'].
  destruct (Hnum "-dDEVICEYRESOLUTION=" eq_refl ltac:(done)) as [Hy Hy'].
  repeat first
    [ rewrite (words_blanks gap) by exact Hgap
    | rewrite words_word by (first [exact Hx|exact Hx'|exact Hy|exact Hy'
                                   |exact Hq1|exact Hq1'|exact Hq2|exact Hq2'|done]) ].
  rewrite words_last by (first [exact Hq3|exact Hq3']).
  reflexivity.
Qed.

Lemma command_word_by_word_witness :
  words (command "uploads/setdpi.ps" "uploads/aa.pdf" "output/x.pdf" 300) =
    ["gs"; "-sDEVICE=pdfwrite"; "-dNOPAUSE"; "-dBATCH"; "-dQUIET";
     "-dPDFSETTINGS=/prepress"; "-dCompatibilityLevel=1.4";
     "-dDEVICEXRESOLUTION=" +:+ number_to_string 300;
     "-dDEVICEYRESOLUTION=" +:+ number_to_string 300;
     "-dFIXEDMEDIA"; "-dPDFX"; "-dUseCIEColor";
     "-f"; quote +:+ "uploads/setdpi.ps" +:+ quote;
     "-f"; quote +:+ "uploads/aa.pdf" +:+ quote;
     "-sOutputFile=" +:+ quote +:+ "output/x.pdf" +:+ quote].
Proof.
  apply (command_word_by_word "uploads/setdpi.ps" "uploads/aa.pdf" "output/x.pdf" 300);
    reflexivity.
Defined.

(** ** Requests one after the other *)

(** X15. After a batch that failed at file k, the outputs written for the
    files before it can still be downloaded, although the 500 response
    names none of them: a GET with the name that file's entry would have
    had returns the bytes that were on disk when file k started (server
    started in the directory of [server.js], an engine that writes nothing
    but its output, a token for file k that was not drawn before). *)
Theorem orphaned_outputs_are_served `{Env} (pre post : list MulterFile)
    (f : MulterFile) (dpi_field : option string) (w : World) rs w1 e w2 :
  cwd = dirname →
  engine_frame →
  staged f →
  (∀ j, (j < length pre)%nat →
        token_at (drawn w + 16 * j) ≠ token_at (drawn w + 16 * length pre)) →
  72 ≤ targetDPI_of dpi_field ≤ 2400 →
  convert_files (targetDPI_of dpi_field) pre [] w = (Resolved rs, w1) →
  convert_file (targetDPI_of dpi_field) f rs w1 = (Rejected e, w2) →
  let run := convert (pre ++ f :: post) dpi_field w in
  response_files run.1 = [] ∧
  ∀ r body, r ∈ rs →
            fs w1 !! output_path (name r) = Some body →
            get_output (name r) run.2 = (Download200 body, run.2).
Proof.
  intros Hdir Hframe Hf Hfresh Hrange Hpre Hfail. cbn zeta.
  rewrite convert_run.
  destruct (decide (pre ++ f :: post = [])) as [Heq|_]; [by destruct pre|].
  cbn zeta. destruct (decide (_ ∨ _)); [lia|].
  rewrite convert_files_app, Hpre. cbn [convert_files].
  unfold mbind, M_bind. rewrite Hfail. cbn [fst snd response_files].
  split; [done|]. intros r body Hr Hbody.
  assert (fs w2 !! output_path (name r) = Some body) as Hkept.
  { rewrite <- Hbody.
    apply convert_files_resolved in Hpre as [Hd ->]. cbn [app] in Hr.
    apply list_elem_of_lookup in Hr as [j Hj].
    rewrite list_lookup_imap in Hj.
    destruct (pre !! j) as [g|] eqn:Hg; [|done]. cbn in Hj. injection Hj as <-.
    apply lookup_lt_Some in Hg.
    apply convert_file_spec in Hfail as (_ & _ & _ & _ & Hfs).
    cbn [name conversion_result].
    apply Hfs; [done|apply psFile_not_output; by eexists| |].
    - apply staged_not_output; [done|by eexists].
    - rewrite Hd. intros Heq.
      apply output_path_token_inj in Heq; [|apply token_at_is_token..].
      by apply (Hfresh j). }
  apply convert_files_resolved in Hpre as [_ ->]. cbn [app] in Hr.
  apply list_elem_of_lookup in Hr as [j Hj].
  rewrite list_lookup_imap in Hj.
  destruct (pre !! j) as [g|]; [|done]. cbn in Hj. injection Hj as <-.
  cbn [name conversion_result] in *.
  destruct (token_name_plain (token_at (drawn w + 16 * j)) (token_at_is_token _))
    as [Hplain Hvis].
  by apply get_output_served.
Qed.

Lemma orphaned_outputs_are_served_witness :
  let entry_a := mkResult "a.pdf" "030a11181f262d343b424950575e656c.pdf"
                   "/output/030a11181f262d343b424950575e656c.pdf" 300 in
  let run := convert (H := Sample.env) ([Sample.good] ++ Sample.bad :: [Sample.late])
               (Some "300") Sample.stored in
  response_files run.1 = [] ∧
  get_output (H := Sample.env) (name entry_a) run.2
  = (Download200 "%PDF-1.4 prepress %PDF-AAA", run.2).
Proof.
  intros entry_a run.
  set (before := (convert_files (H := Sample.env) (targetDPI_of (Some "300"))
                    [Sample.good] [] Sample.stored).2).
  assert (72 ≤ targetDPI_of (Some "300") ≤ 2400) as Hrange.
  { change (targetDPI_of (Some "300")) with 300. lia. }
  assert (convert_files (H := Sample.env) (targetDPI_of (Some "300")) [Sample.good] []
            Sample.stored = (Resolved [entry_a], before)) as Hpre.
  { vm_compute. reflexivity. }
  assert (∃ e w2, convert_file (H := Sample.env) (targetDPI_of (Some "300")) Sample.bad
                    [entry_a] before = (Rejected e, w2)) as (e & w2 & Hfail).
  { do 2 eexists. vm_compute. reflexivity. }
  assert (∀ j, (j < length [Sample.good])%nat →
            token_at (H := Sample.env) (drawn Sample.stored + 16 * j)
            ≠ token_at (H := Sample.env)
                (drawn Sample.stored + 16 * length [Sample.good])) as Hfresh.
  { intros j Hj. assert (j = O) as -> by (cbn in Hj; lia). by vm_compute. }
  destruct (orphaned_outputs_are_served (H := Sample.env) [Sample.good] [Sample.late]
              Sample.bad (Some "300") Sample.stored [entry_a] before e w2
              eq_refl sample_engine_frame eq_refl Hfresh Hrange Hpre Hfail)
    as [Hnone Hget].
  split; [exact Hnone|].
  apply (Hget entry_a); [apply list_elem_of_here|].
  vm_compute. reflexivity.
Defined.

(** ** Upload intake *)

(** X16. When every part of an upload declares "application/pdf" and is
    within the size limit, the route is reached with one file record per
    part, in the order of the parts, each with the original name and type
    of its part and a path under "uploads/". *)
Theorem accepted_upload_reaches_route `{Env} (parts : list Part)
    (dpi_field : option string) (w : World) :
  Forall (λ p, part_type p = "application/pdf" ∧
               (N.of_nat (String.length (part_data p)) ≤ fileSize_limit)%N) parts →
  ∃ files w1,
    upload_array parts 0 [] w = (Resolved files, w1) ∧
    post_convert parts dpi_field w = convert files dpi_field w1 ∧
    originalname <$> files = part_filename <$> parts ∧
    Forall (λ f, mimetype f = "application/pdf" ∧ staged f) files ∧
    drawn w1 = (drawn w + 16 * length parts)%nat.
Proof.
  intros Hparts.
  assert (∀ index stored w0,
            ∃ files w1,
              upload_array parts index stored w0 = (Resolved (stored ++ files), w1) ∧
              originalname <$> files = part_filename <$> parts ∧
              Forall (λ f, mimetype f = "application/pdf" ∧ staged f) files ∧
              drawn w1 = (drawn w0 + 16 * length parts)%nat) as Hgen.
  { induction Hparts as [|p parts [Htype Hsize] _ IH]; intros index stored w0.
    - exists [], w0. cbn. rewrite (right_id_L [] (++)). split_and!; [done..|lia].
    - cbn [upload_array]. unfold fileFilter.
      destruct (decide (part_type p ≠ "application/pdf")); [done|].
      unfold mbind at 1. unfold M_bind.
      destruct (store_spec index p w0) as (f & -> & Hf & Hname & Hmime).
      destruct (decide (fileSize_limit < _)%N); [lia|].
      destruct (IH (S index) (stored ++ [f])
                  (mkWorld (<[resolve (path f) := part_data p]> (fs w0))
                     (drawn w0 + 16) (events w0 ++ [Staged index (path f)])))
        as (files & w1 & -> & Hnames & Hall & Hd).
      exists (f :: files), w1. cbn [drawn length] in *.
      rewrite <- (assoc_L (++)). split_and!; [done| | |lia].
      + cbn. by rewrite Hname, Hnames.
      + constructor; [|done]. split; [congruence|done]. }
  destruct (Hgen O [] w) as (files & w1 & Hup & Hnames & Hall & Hd).
  exists files, w1. cbn [app] in Hup.
  split_and!; [done| |done..].
  unfold post_convert. by rewrite Hup.
Qed.

Lemma accepted_upload_reaches_route_witness :
  ∃ files w1,
    upload_array (H := Sample.env)
      [Sample.pdf "a.pdf" "%PDF-AAA"; Sample.pdf "c.pdf" "%PDF-C"] 0 [] Sample.world
    = (Resolved files, w1) ∧
    originalname <$> files = ["a.pdf"; "c.pdf"].
Proof.
  destruct (accepted_upload_reaches_route (H := Sample.env)
              [Sample.pdf "a.pdf" "%PDF-AAA"; Sample.pdf "c.pdf" "%PDF-C"]
              (Some "300") Sample.world)
    as (files & w1 & Hup & _ & Hnames & _).
  - repeat constructor; by vm_compute.
  - exists files, w1. split; [exact Hup|exact Hnames].
Defined.

(** X17. A dpi field in hexadecimal is read in base sixteen: "0x" followed
    by the two hexadecimal digits of a byte gives the value of that byte as
    the target resolution (300 for the byte zero). *)
Theorem hexadecimal_dpi_is_read (b : byte) :
  targetDPI_of (Some ("0x" +:+ hex [b])) =
    if decide (Byte.to_N b = 0%N) then 300 else Z.of_N (Byte.to_N b).
Proof. destruct b; reflexivity. Qed.

Section UploadFacts.

Context `{Env}.

Lemma filter_none {A} (P : A → Prop) `{∀ x, Decision (P x)} (l : list A) :
  Forall (λ x, ¬ P x) l → filter P l = [].
Proof.
  induction 1 as [|x l Hx _ IH]; [done|]. by rewrite filter_cons_False.
Qed.

Lemma staged_paths_app (a b : list Event) :
  staged_paths (a ++ b) = staged_paths a ++ staged_paths b.
Proof. unfold staged_paths. apply omap_app. Qed.

Lemma store_name_not_directive (index : nat) (p : Part) (w : World) f w1 :
  store index p w = (Resolved f, w1) → staged f ∧ filename f ≠ "setdpi.ps".
Proof.
  unfold store, storage_filename, randomBytes, mbind, M_bind, mret, M_ret.
  cbn [fs drawn events]. fold (token_at (drawn w)).
  intros [= <- _]. split; [done|]. cbn [filename].
  destruct (token_first_char (drawn w)) as (c & rest & -> & Hc).
  rewrite str_app_cons. intros [= -> _]. done.
Qed.

(** The files the middleware hands over are those it logged as staged. *)
Lemma upload_array_resolved (parts : list Part) (index : nat)
    (stored : list MulterFile) (w : World) files w1 :
  upload_array parts index stored w = (Resolved files, w1) →
  ∃ new, files = stored ++ new ∧
         staged_paths (events w1) = staged_paths (events w) ++ (path <$> new) ∧
         Forall (λ f, staged f ∧ filename f ≠ "setdpi.ps") new.
Proof.
  revert index stored w. induction parts as [|p parts IH]; intros index stored w.
  { intros [= <- <-]. exists []. rewrite fmap_nil, !(right_id_L [] (++)). done. }
  cbn [upload_array]. unfold fileFilter.
  destruct (decide (part_type p ≠ "application/pdf")); [done|].
  unfold mbind at 1. unfold M_bind.
  destruct (store index p w) as [[f|e] w0] eqn:Hstore.
  2:{ destruct (store_spec index p w) as (g & Hg & _). congruence. }
  pose proof (store_name_not_directive _ _ _ _ _ Hstore) as Hok.
  destruct (store_spec index p w) as (g & Hg & _).
  rewrite Hg in Hstore. injection Hstore as -> <-.
  destruct (decide (fileSize_limit < _)%N); [done|].
  intros (new & -> & Hpaths & Hall)%IH.
  exists (f :: new). rewrite <- (assoc_L (++)). split_and!; [done| |by constructor].
  rewrite Hpaths. cbn [events]. rewrite staged_paths_app.
  rewrite <- (assoc_L (++)). done.
Qed.

Lemma batch_events_stage_nothing (t : Z) (files : list MulterFile) (evs : list Event) :
  Forall (batch_event t files) evs → staged_paths evs = [].
Proof.
  induction 1 as [|e evs (f & tok & _ & _ & He) _ IH]; [done|].
  destruct e; try done; exact IH.
Qed.

End UploadFacts.

(** X18. Where no unlink fails, nothing of an upload answered with 200 is
    left in the uploads directory: with a log that starts empty and an
    engine that writes nothing but its output, no staged file of the
    request is on disk any more, and the directive is gone. *)
Theorem converted_upload_leaves_nothing `{Env} (parts : list Part)
    (dpi_field : option string) (w : World) :
  unlink_reliable →
  engine_frame →
  events w = [] →
  status (post_convert parts dpi_field w).1 = 200 →
  left_on_disk (post_convert parts dpi_field w).2 = [] ∧
  fs (post_convert parts dpi_field w).2 !! resolve psFile = None.
Proof.
  intros Hrel Hframe Hlog. unfold post_convert.
  destruct (upload_array parts 0 [] w) as [[files|e] w1] eqn:Hup; [|done].
  apply upload_array_resolved in Hup as (new & -> & Hpaths & Hall).
  cbn [app] in *. intros Hok.
  assert ((∀ f, f ∈ new → fs (convert new dpi_field w1).2 !! resolve (path f) = None) ∧
          fs (convert new dpi_field w1).2 !! resolve psFile = None) as [Hgone Hdir].
  { revert Hok. rewrite convert_run.
    destruct (decide (new = [])); [done|].
    cbn zeta. destruct (decide (_ ∨ _)); [done|].
    destruct (convert_files _ _ _ _) as [[rs|e] w2] eqn:Hrun; [|done].
    intros _. cbn [snd]. split.
    - intros f Hf. rewrite Forall_forall in Hall. destruct (Hall f Hf).
      eapply convert_files_removes; eauto.
    - by eapply convert_files_resolved_directive. }
  split; [|done].
  destruct (convert new dpi_field w1) as [resp w2] eqn:Hrun. cbn [fst snd] in *.
  apply convert_events in Hrun as (evs & Hev & Hbatch & _).
  unfold left_on_disk. rewrite Hev, staged_paths_app, Hpaths, Hlog.
  rewrite (batch_events_stage_nothing _ _ _ Hbatch), (right_id_L [] (++)).
  cbn [staged_paths omap list_omap app].
  apply filter_none, Forall_forall.
  intros p [f [-> Hf]]%list_elem_of_fmap. rewrite (Hgone f Hf).
  by intros [? ?].
Qed.

Lemma converted_upload_leaves_nothing_witness :
  let after := (post_convert (H := Sample.env)
                  [Sample.pdf "a.pdf" "%PDF-AAA"; Sample.pdf "c.pdf" "%PDF-C"]
                  (Some "300") Sample.world).2 in
  left_on_disk (H := Sample.env) after = [] ∧
  fs after !! resolve (H := Sample.env) psFile = None.
Proof.
  apply (converted_upload_leaves_nothing (H := Sample.env)).
  - by intros p m.
  - exact sample_engine_frame.
  - reflexivity.
  - by vm_compute.
Defined.

(** ** Paths the server builds *)

(** X19. The two paths that the server joins itself are joined without
    any normalisation taking effect: the directive path is "uploads",
    a slash and "setdpi.ps", and the output path of a token is "output", a
    slash and the name of the output. *)
Theorem server_paths_are_joined_plainly (tok : string) :
  is_token tok →
  Path.join ["uploads"; "setdpi.ps"] = psFile ∧
  Path.join ["output"; tok +:+ ".pdf"] = path_join "output" (tok +:+ ".pdf").
Proof.
  intros Htok. split; [reflexivity|].
  destruct (token_name_plain tok Htok) as [Hplain _].
  by rewrite join_output_plain.
Qed.

Lemma server_paths_are_joined_plainly_witness :
  Path.join ["output"; "030a11181f262d343b424950575e656c" +:+ ".pdf"]
  = path_join "output" ("030a11181f262d343b424950575e656c" +:+ ".pdf").
Proof.
  apply (server_paths_are_joined_plainly "030a11181f262d343b424950575e656c").
  split; reflexivity.
Defined.

(** ** What the download route reaches *)





(** ** Cleanup that fails *)

Section CleanupFacts.

Context `{Env}.

Lemma unlinked_stuck (p : string) (m : gmap string string) :
  unlink_stuck → unlinked p m = m.
Proof. intros Hstuck. unfold unlinked. by destruct (Hstuck (resolve p) m) as [e ->]. Qed.

Lemma convert_file_stuck (t : Z) (f : MulterFile) rs (w : World) r w' (p : string) :
  unlink_stuck → engine_frame →
  convert_file t f rs w = (r, w') →
  p ≠ resolve psFile →
  p ≠ output_path (token_at (drawn w) +:+ ".pdf") →
  fs w' !! p = fs w !! p.
Proof.
  intros Hstuck Hframe. rewrite convert_file_run. cbn zeta.
  destruct (setPdfDPI _ _ _ _) as [r0 w0] eqn:Hset.
  apply setPdfDPI_spec in Hset as (_ & _ & Hfs). cbn [fs] in Hfs.
  intros Hrun Hps Hout.
  assert (fs w0 !! p = fs w !! p) as H0.
  { apply Hfs; [done|]. intros m. apply Hframe; [apply token_at_is_token|done]. }
  destruct r0 as [[]|e].
  - destruct (unlink_run (path f) ["Cleanup error:"] w0) as (tail & Hun & _).
    rewrite Hun in Hrun. injection Hrun as _ <-. cbn [fs].
    by rewrite unlinked_stuck.
  - destruct (unlink_run (path f) ["Cleanup error:"]
                (console_error ["Processing error:"; e] w0)) as (tail & Hun & _).
    rewrite Hun in Hrun. injection Hrun as _ <-. cbn [fs].
    by rewrite unlinked_stuck.
Qed.

Lemma convert_files_stuck (t : Z) (files : list MulterFile) rs (w : World) r w'
    (p : string) :
  unlink_stuck → engine_frame →
  convert_files t files rs w = (r, w') →
  p ≠ resolve psFile →
  (∀ j, (j < length files)%nat →
        p ≠ output_path (token_at (drawn w + 16 * j) +:+ ".pdf")) →
  fs w' !! p = fs w !! p.
Proof.
  intros Hstuck Hframe. revert rs w.
  induction files as [|f files IH]; intros rs w.
  { by intros [= <- <-]. }
  cbn [convert_files]. unfold mbind, M_bind.
  destruct (convert_file t f rs w) as [r1 w1] eqn:Hrun.
  intros Hrest Hps Hfresh.
  assert (fs w1 !! p = fs w !! p) as H1.
  { eapply convert_file_stuck; [done..|].
    specialize (Hfresh O ltac:(cbn [length]; lia)).
    by rewrite Nat.mul_0_r, Nat.add_0_r in Hfresh. }
  apply convert_file_spec in Hrun as (Hd & _).
  destruct r1 as [rs1|e1].
  - rewrite <- H1. eapply IH; [exact Hrest|done|].
    intros j Hj. specialize (Hfresh (S j) ltac:(cbn [length]; lia)).
    rewrite Hd.
    by replace (drawn w + 16 + 16 * j)%nat with (drawn w + 16 * S j)%nat by lia.
  - by simplify_eq.
Qed.

Lemma convert_file_stuck_directive (t : Z) (f : MulterFile) rs (w : World) rs' w' :
  unlink_stuck → engine_frame →
  convert_file t f rs w = (Resolved rs', w') →
  fs w' !! resolve psFile = Some (psContent t).
Proof.
  intros Hstuck Hframe. rewrite convert_file_run. cbn zeta. rewrite setPdfDPI_run.
  cbn zeta. cbn [fs drawn events].
  destruct (write_error _ _) as [e|]; [done|].
  destruct (exec_error _) as [e|]; [done|].
  match goal with
  | |- context [catch_log (fs_unlink psFile) [] ?W] =>
      destruct (unlink_run psFile [] W) as (tail1 & -> & _)
  end.
  match goal with
  | |- context [catch_log (fs_unlink (path f)) ?l ?W] =>
      destruct (unlink_run (path f) l W) as (tail2 & -> & _)
  end.
  intros [= _ <-]. cbn [fs]. rewrite !unlinked_stuck by done.
  rewrite Hframe; [apply lookup_insert_eq|apply token_at_is_token|].
  intros Heq. symmetry in Heq. revert Heq. apply psFile_not_output. by eexists.
Qed.

Lemma convert_files_stuck_directive (t : Z) (files : list MulterFile) rs
    (w : World) rs' w' :
  unlink_stuck → engine_frame →
  files ≠ [] →
  convert_files t files rs w = (Resolved rs', w') →
  fs w' !! resolve psFile = Some (psContent t).
Proof.
  intros Hstuck Hframe.
  revert rs w. induction files as [|f files IH]; intros rs w Hne; [done|].
  cbn [convert_files]. unfold mbind, M_bind.
  destruct (convert_file t f rs w) as [[rs1|e1] w1] eqn:Hf; [|done].
  destruct files as [|g files].
  - intros [= <- <-]. by eapply convert_file_stuck_directive.
  - intros Hrest. by eapply IH.
Qed.

End CleanupFacts.

(** X22. A cleanup that fails is only logged.  Where every unlink fails,
    every staged file of a request is still on disk after it, as it was,
    whatever the response; and after a response of 200 the directive of
    the last conversion is still on disk too (files stored under
    "uploads/" by a name other than that of the directive, an engine that
    writes nothing but its output). *)
Theorem failed_cleanup_is_only_logged `{Env} (files : list MulterFile)
    (dpi_field : option string) (w : World) :
  unlink_stuck →
  engine_frame →
  Forall (λ f, staged f ∧ filename f ≠ "setdpi.ps") files →
  let run := convert files dpi_field w in
  (∀ f, f ∈ files → fs run.2 !! resolve (path f) = fs w !! resolve (path f)) ∧
  (status run.1 = 200 →
   fs run.2 !! resolve psFile = Some (psContent (targetDPI_of dpi_field))).
Proof.
  intros Hstuck Hframe Hfiles. cbn zeta. rewrite convert_run.
  destruct (decide (files = [])); [done|].
  cbn zeta. destruct (decide (_ ∨ _)); [done|].
  rewrite Forall_forall in Hfiles.
  destruct (convert_files _ _ _ _) as [[rs|e] w1] eqn:Hrun; cbn [fst snd status].
  - split; [|intros _; by eapply convert_files_stuck_directive].
    intros f Hf. destruct (Hfiles f Hf) as [Hst Hname].
    eapply convert_files_stuck; [done..|by apply staged_path_not_directive|].
    intros j _. by apply staged_path_not_output.
  - split; [|done]. intros f Hf. destruct (Hfiles f Hf) as [Hst Hname].
    unfold console_error, log. cbn [fs].
    eapply convert_files_stuck; [done..|by apply staged_path_not_directive|].
    intros j _. by apply staged_path_not_output.
Qed.

Lemma failed_cleanup_is_only_logged_witness :
  let run := convert (H := Sample.env_stuck) [Sample.good; Sample.late] (Some "300")
               Sample.stored in
  status run.1 = 200 ∧
  fs run.2 !! resolve (H := Sample.env_stuck) (path Sample.good) = Some "%PDF-AAA" ∧
  fs run.2 !! resolve (H := Sample.env_stuck) psFile = Some (psContent 300).
Proof.
  intros run.
  assert (status run.1 = 200) as Hstatus by (by vm_compute).
  destruct (failed_cleanup_is_only_logged (H := Sample.env_stuck)
              [Sample.good; Sample.late] (Some "300") Sample.stored)
    as [Hkept Hdir].
  - intros p m. by eexists.
  - exact sample_engine_frame.
  - repeat constructor; done.
  - split; [exact Hstatus|]. split.
    + unfold run. rewrite (Hkept Sample.good); [reflexivity|apply list_elem_of_here].
    + exact (Hdir Hstatus).
Defined.
